(** * Raft.js: the request-animation-frame threshold helper

    A shallow embedding of [raft.js] (the [Raft] constructor and the four
    methods it installs on every instance: [loop], [cancel],
    [calibrateTargetFps], [updateCalibrationBuffer_]) together with the
    part of the browser the code talks to (the clock, [setTimeout],
    [requestAnimationFrame], their cancellation and [console.log]).

    Conventions of the model:
    - a JavaScript number is an IEEE 754 binary64 value: the Standard
      Library's [spec_float] at precision 53 and maximal exponent 1024, whose
      operations round to nearest, ties to even, and keep the sign of zero,
      the infinities and [NaN] as the language does; the numbers the code
      is given are doubles (the [spec_float]s that are [valid_binary]), and
      the properties are proved of every [spec_float]; the frame counter
      [frames_] is an integer, which it is below [2^53] iterations;
    - the three user callbacks are observers: a call is recorded, with its
      four arguments, in the host's call log; a callback may call [cancel()]
      on the instance ([opt_cancels] says at which of its calls it does) and
      calls no other method of it;
    - the host is a browser: [window] exists, timer and frame handles are
      fresh naturals, a pending timer or frame runs only when the host
      fires it ([fire_timeout], [fire_frame]), and there is memory for the
      buffer the constructor fills;
    - the copies [this.fpsBufferLength], [this.loopTimeout] and
      [this.action] are left out: the methods read the closure variables,
      never these fields; so are the globals [time] and [fps] the loop
      assigns, which are written before they are read in every iteration. *)

From Stdlib Require Import QArith ZArith Lia Bool List.
From Stdlib Require Import SpecFloat.
From stdpp Require Import base option list.
Import ListNotations.

#[local] Open Scope Z_scope.

(** ** JavaScript numbers *)

Module Num.

Definition num : Type := spec_float.

Definition PInf : num := S754_infinity false.
Definition NInf : num := S754_infinity true.
Definition NaN : num := S754_nan.

(** [a + b] *)
Definition add (a b : num) : num := SFadd 53 1024 a b.

(** [a - b] *)
Definition sub (a b : num) : num := SFsub 53 1024 a b.

(** [a * b] *)
Definition mul (a b : num) : num := SFmul 53 1024 a b.

(** [a / b] *)
Definition div (a b : num) : num := SFdiv 53 1024 a b.

(** The number an integer literal denotes: the integer itself up to [2^53],
    the nearest double beyond. *)
Definition of_Z (z : Z) : num := binary_normalize 53 1024 z 0 false.
Definition of_nat (n : nat) : num := of_Z (Z.of_nat n).

Definition zero : num := S754_zero false.
Definition one : num := of_Z 1.

(** The number a decimal literal denotes: the double nearest to the
    fraction [q], whose numerator and denominator are below [2^53]
    ([60.5] is [Fin (121 # 2)]). *)
Definition Fin (q : Q) : num := div (of_Z (Qnum q)) (of_Z (Zpos (Qden q))).

(** [Math.floor(a)]: a double with a non-negative exponent is an integer;
    the floor of any other is below [2^53] in absolute value. *)
Definition floor (a : num) : num :=
  match a with
  | S754_finite s m e =>
      if (0 <=? e)%Z then a
      else of_Z (Z.shiftr (cond_Zopp s (Zpos m)) (- e))
  | _ => a
  end.

(** [a < b] *)
Definition lt (a b : num) : bool := SFltb a b.

(** [a > b] *)
Definition gt (a b : num) : bool := lt b a.

(** [a <= b] *)
Definition le (a b : num) : bool := SFleb a b.

(** [a >= b] *)
Definition ge (a b : num) : bool := le b a.

(** Truthiness of a number: everything but the two zeros and [NaN]. *)
Definition truthy (a : num) : bool :=
  match a with
  | S754_zero _ | S754_nan => false
  | _ => true
  end.

(** The integer a number is, if it is one. *)
Definition to_integer (a : num) : option Z :=
  match a with
  | S754_zero _ => Some 0%Z
  | S754_finite s m e =>
      if (0 <=? e)%Z then Some (cond_Zopp s (Zpos m * 2 ^ e))
      else if (Zpos m mod 2 ^ (- e) =? 0)%Z
           then Some (cond_Zopp s (Zpos m / 2 ^ (- e)))
           else None
  | _ => None
  end.

End Num.

Import Num.

(** ** Errors thrown by the code *)

Inductive error : Type :=
| TypeError
| RangeError.

Inductive result (A : Type) : Type :=
| Ok (a : A)
| Err (e : error).

Arguments Ok {A} a.
Arguments Err {A} e.

Definition bind {A B : Type} (m : result A) (k : A -> result B) : result B :=
  match m with
  | Ok a => k a
  | Err e => Err e
  end.

Notation "'let*' x ':=' m 'in' k" := (bind m (fun x => k))
  (at level 10, x name, m at level 100, k at level 200).

(** ** Arrays of numbers

    The two arrays of the source ([fpsBuffer], [calibrateTargetBuffer_]) are
    only ever read inside a numeric sum, where an empty slot or an index past
    the end reads [undefined] and adds as [NaN]; an empty slot is therefore
    kept as [NaN]. *)

(** [xs[i]] inside a sum *)
Definition array_get (xs : list num) (i : nat) : num :=
  default NaN (xs !! i).

(** [xs[i] = v]: in range the slot is overwritten, past the end the array
    grows up to index [i]. *)
Definition array_set (xs : list num) (i : nat) (v : num) : list num :=
  if (i <? length xs)%nat then <[i:=v]> xs
  else xs ++ replicate (i - length xs) NaN ++ [v].

(** [var s = 0; for (var i = 0; i < n; i++) s += xs[i];] *)
Definition sum_upto (xs : list num) (n : nat) : num :=
  fold_left (fun acc i => Num.add acc (array_get xs i)) (seq 0 n) zero.

(** The sum of a list of numbers, added from the left starting at [0]. *)
Definition total (xs : list num) : num := fold_left Num.add xs zero.

(** ** The host: timers, animation frames, console, callbacks *)

Inductive callback : Type := Action | Inaction | Always.

(** One call of a user callback, with the four arguments it received:
    [(frames_, fps, avgFps, maxFps)]. *)
Record call : Type := Call {
  call_fn : callback;
  call_frame : Z;
  call_fps : num;
  call_avgFps : num;
  call_maxFps : num
}.

(** What a pending [setTimeout] will run: the closure of [loop] that
    requests the next animation frame, or the closure of
    [calibrateTargetFps] that calibrates again. *)
Inductive task : Type := TRequestFrame | TCalibrate.

Record timer : Type := Timer {
  timer_id : nat;
  timer_task : task;
  timer_delay : num
}.

Record Host : Type := MkHost {
  timers : list timer;      (* pending setTimeout callbacks *)
  frames : list nat;        (* pending requestAnimationFrame handles *)
  next_timer : nat;
  next_frame : nat;
  calls : list call;        (* callbacks called so far, oldest first *)
  console : list num        (* target FPS values printed by console.log *)
}.

Definition new_host : Host :=
  {| timers := []; frames := []; next_timer := 1; next_frame := 1;
     calls := []; console := [] |}.

Definition setTimeout (k : task) (delay : num) (h : Host) : Host * nat :=
  ({| timers := timers h ++ [Timer (next_timer h) k delay];
      frames := frames h;
      next_timer := S (next_timer h);
      next_frame := next_frame h;
      calls := calls h;
      console := console h |}, next_timer h).

Definition requestAnimationFrame (h : Host) : Host * nat :=
  ({| timers := timers h;
      frames := frames h ++ [next_frame h];
      next_timer := next_timer h;
      next_frame := S (next_frame h);
      calls := calls h;
      console := console h |}, next_frame h).

(** [clearTimeout(handle)]; an [undefined] or stale handle clears nothing. *)
Definition clearTimeout (handle : option nat) (h : Host) : Host :=
  match handle with
  | None => h
  | Some id =>
      {| timers := filter (fun t => timer_id t <> id) (timers h);
         frames := frames h;
         next_timer := next_timer h;
         next_frame := next_frame h;
         calls := calls h;
         console := console h |}
  end.

(** [cancelAnimationFrame(handle)] *)
Definition cancelAnimationFrame (handle : option nat) (h : Host) : Host :=
  match handle with
  | None => h
  | Some id =>
      {| timers := timers h;
         frames := filter (fun f => f <> id) (frames h);
         next_timer := next_timer h;
         next_frame := next_frame h;
         calls := calls h;
         console := console h |}
  end.

Definition invoke (cs : list call) (h : Host) : Host :=
  {| timers := timers h;
     frames := frames h;
     next_timer := next_timer h;
     next_frame := next_frame h;
     calls := calls h ++ cs;
     console := console h |}.

Definition console_log (x : num) (h : Host) : Host :=
  {| timers := timers h;
     frames := frames h;
     next_timer := next_timer h;
     next_frame := next_frame h;
     calls := calls h;
     console := console h ++ [x] |}.

(** ** The Raft object *)

(** The [options] argument of the constructor, typed as its documentation
    types it; [None] is an absent option. [options.action] does not appear:
    the closure variable [action] is a function whether it is given or not,
    and its calls are logged as [Action]. [opt_cancels] is what the
    callbacks do to the instance: it is true of the calls during which the
    callback calls [cancel()] on it. *)
Record Options : Type := MkOptions {
  opt_useAverage : option bool;
  opt_fpsBufferLength : option num;
  opt_loopTimeout : option num;
  opt_targetFps : option num;
  opt_calibrationPeriod : option num;
  opt_inaction : bool;      (* typeof options.inaction === 'function' *)
  opt_always : bool;        (* typeof options.always === 'function' *)
  opt_cancels : call -> bool
}.

(** The closure variables of the constructor that are never assigned again,
    and the callbacks' behaviour. [fpsBufferLength] is a positive integer:
    the constructor replaces [0] by [3] and [new Array] rejects a length
    that is negative or not an integer. *)
Record Config : Type := MkConfig {
  useAverage : bool;
  fpsBufferLength : positive;
  loopTimeout : num;
  calibrationPeriod : option num;
  hasInaction : bool;
  hasAlways : bool;
  cancels : call -> bool
}.

(** The fields of [this], and the one closure variable that is assigned
    after construction, [updatingTargetFps]. [None] is [null] for [this.fps],
    [avgFps], [timeout_], [request_], and [undefined] for the others. *)
Record State : Type := MkState {
  frames_ : Z;
  lastTime : num;
  this_fps : option num;   (* this.fps; the loop's [fps] is a global variable *)
  maxFps : num;
  minFps : num;
  avgFps : option num;
  fpsBuffer : list num;
  bufferIndex : nat;
  targetFps : num;
  timeout_ : option nat;
  request_ : option nat;
  timeout : option nat;
  request : option nat;
  frameCount : option num;
  calibrateTargetBuffer_ : option (list num);
  updatingTargetFps : bool
}.

Record World : Type := MkWorld {
  cfg : Config;
  obj : State;
  host : Host
}.

Definition with_host (h : Host) (w : World) : World :=
  {| cfg := cfg w; obj := obj w; host := h |}.

Definition set_timeout (v : option nat) (r : State) : State :=
  {| frames_ := frames_ r; lastTime := lastTime r; this_fps := this_fps r;
     maxFps := maxFps r; minFps := minFps r; avgFps := avgFps r;
     fpsBuffer := fpsBuffer r; bufferIndex := bufferIndex r;
     targetFps := targetFps r; timeout_ := timeout_ r;
     request_ := request_ r; timeout := v; request := request r;
     frameCount := frameCount r;
     calibrateTargetBuffer_ := calibrateTargetBuffer_ r;
     updatingTargetFps := updatingTargetFps r |}.

Definition set_request (v : option nat) (r : State) : State :=
  {| frames_ := frames_ r; lastTime := lastTime r; this_fps := this_fps r;
     maxFps := maxFps r; minFps := minFps r; avgFps := avgFps r;
     fpsBuffer := fpsBuffer r; bufferIndex := bufferIndex r;
     targetFps := targetFps r; timeout_ := timeout_ r;
     request_ := request_ r; timeout := timeout r; request := v;
     frameCount := frameCount r;
     calibrateTargetBuffer_ := calibrateTargetBuffer_ r;
     updatingTargetFps := updatingTargetFps r |}.

(** [x || d] for an optional number *)
Definition num_or (x : option num) (d : num) : num :=
  match x with
  | Some v => if Num.truthy v then v else d
  | None => d
  end.

(** [x || d] for an optional boolean *)
Definition bool_or (x : option bool) (d : bool) : bool :=
  match x with
  | Some true => true
  | _ => d
  end.

(** [x || null] for the calibration period *)
Definition num_or_null (x : option num) : option num :=
  match x with
  | Some v => if Num.truthy v then Some v else None
  | None => None
  end.

(** ToNumber of a field that may be [undefined] *)
Definition to_number (x : option num) : num :=
  match x with
  | Some v => v
  | None => NaN
  end.

(** [this.calibrateTargetFps(frameCount)] *)
Definition calibrateTargetFps (frameCount : option num) (w : World) : World :=
  let r := obj w in
  let r' :=
    {| frames_ := frames_ r; lastTime := lastTime r; this_fps := this_fps r;
       maxFps := maxFps r; minFps := minFps r; avgFps := avgFps r;
       fpsBuffer := fpsBuffer r; bufferIndex := bufferIndex r;
       targetFps := targetFps r; timeout_ := timeout_ r;
       request_ := request_ r; timeout := timeout r; request := request r;
       frameCount := Some (num_or frameCount (of_Z 60));
       calibrateTargetBuffer_ := Some [];
       updatingTargetFps := true |} in
  (* Call the next auto-calibration step after the defined period. *)
  match calibrationPeriod (cfg w) with
  | Some period =>
      {| cfg := cfg w; obj := r';
         host := fst (setTimeout TCalibrate period (host w)) |}
  | None => {| cfg := cfg w; obj := r'; host := host w |}
  end.

(** [this.updateCalibrationBuffer_(fps)]; [push] on an [undefined] buffer
    throws. *)
Definition updateCalibrationBuffer_ (fps : num) (w : World) : result World :=
  let r := obj w in
  match calibrateTargetBuffer_ r with
  | None => Err TypeError
  | Some buffer =>
      let buffer := buffer ++ [fps] in
      let count := Num.sub (to_number (frameCount r)) one in
      if Num.lt count one then
        let bufferSum := sum_upto buffer (length buffer) in
        (* Set the new target FPS to be the average FPS reading with offset. *)
        let target :=
          Num.add (Num.div bufferSum (of_nat (length buffer))) (Fin (1 # 2)) in
        Ok {| cfg := cfg w;
              obj :=
                {| frames_ := frames_ r; lastTime := lastTime r;
                   this_fps := this_fps r;
                   maxFps := maxFps r; minFps := minFps r; avgFps := avgFps r;
                   fpsBuffer := fpsBuffer r; bufferIndex := bufferIndex r;
                   targetFps := target; timeout_ := timeout_ r;
                   request_ := request_ r; timeout := timeout r;
                   request := request r;
                   frameCount := Some count;
                   calibrateTargetBuffer_ := Some buffer;
                   updatingTargetFps := false |};
              host := console_log target (host w) |}
      else
        Ok {| cfg := cfg w;
              obj :=
                {| frames_ := frames_ r; lastTime := lastTime r;
                   this_fps := this_fps r;
                   maxFps := maxFps r; minFps := minFps r; avgFps := avgFps r;
                   fpsBuffer := fpsBuffer r; bufferIndex := bufferIndex r;
                   targetFps := targetFps r; timeout_ := timeout_ r;
                   request_ := request_ r; timeout := timeout r;
                   request := request r;
                   frameCount := Some count;
                   calibrateTargetBuffer_ := Some buffer;
                   updatingTargetFps := updatingTargetFps r |};
              host := host w |}
  end.

(** [this.fpsBuffer = new Array(n);
    for (var i=0; i<n;) this.fpsBuffer[i++] = 0;] *)
Definition new_fpsBuffer (n : nat) : list num :=
  fold_left (fun xs i => array_set xs i zero) (seq 0 n) (replicate n NaN).

(** The length [new Array(len)] gives the array: [len] when it is an integer
    from [0] to [2^32 - 1]; any other number throws. *)
Definition array_length (len : num) : result Z :=
  match Num.to_integer len with
  | Some n => if (0 <=? n)%Z && (n <? 2 ^ 32)%Z then Ok n else Err RangeError
  | None => Err RangeError
  end.

(** [new Raft(options)], with [now] the value [Date.now()] returns. A truthy
    [calibrationPeriod] makes the constructor call [this.calibrateTargetFps]
    before that method is assigned, which throws. *)
Definition Raft (options : Options) (now : num) : result World :=
  let useAverage := bool_or (opt_useAverage options) true in
  let fpsBufferLength := num_or (opt_fpsBufferLength options) (of_Z 3) in
  let loopTimeout := num_or (opt_loopTimeout options) zero in
  let targetFps := num_or (opt_targetFps options) (Fin (121 # 2)) in
  let calibrationPeriod := num_or_null (opt_calibrationPeriod options) in
  let* n := array_length fpsBufferLength in
    match calibrationPeriod with
    | Some _ => Err TypeError
    | None =>
        Ok {| cfg :=
                {| useAverage := useAverage;
                   fpsBufferLength := Z.to_pos n;
                   loopTimeout := loopTimeout;
                   calibrationPeriod := calibrationPeriod;
                   hasInaction := opt_inaction options;
                   hasAlways := opt_always options;
                   cancels := opt_cancels options |};
              obj :=
                {| frames_ := 0;
                   lastTime := now;
                   this_fps := None;
                   maxFps := zero;
                   minFps := PInf;
                   avgFps := None;
                   fpsBuffer := new_fpsBuffer (Z.to_nat n);
                   bufferIndex := 0;
                   targetFps := targetFps;
                   timeout_ := None;
                   request_ := None;
                   timeout := None;
                   request := None;
                   frameCount := None;
                   calibrateTargetBuffer_ := None;
                   updatingTargetFps := false |};
              host := new_host |}
    end.

(** [Math.floor(1000/(time - this.lastTime))] *)
Definition measure (time last : num) : num :=
  Num.floor (Num.div (of_Z 1000) (Num.sub time last)).

(** [this.cancel()] *)
Definition cancel (w : World) : World :=
  with_host
    (cancelAnimationFrame (request (obj w))
       (clearTimeout (timeout (obj w)) (host w))) w.

(** [this.loop()], with [time] the value [this.now()] returns. The callbacks
    run before the next step is scheduled: a [cancel()] one of them calls
    clears the handles of the steps scheduled earlier. *)
Definition loop (time : num) (w : World) : result World :=
  let c := cfg w in
  let r := obj w in
  let n := Pos.to_nat (fpsBufferLength c) in
  let frames := (frames_ r + 1)%Z in
  (* Calculate the FPS using the current and last recorded time. *)
  let fps := measure time (lastTime r) in
  (* Update the max FPS. *)
  let maxFps' := if Num.gt fps (maxFps r) then fps else maxFps r in
  (* Update the FPS buffer to better predict average FPS. *)
  let buffer := array_set (fpsBuffer r) (bufferIndex r) fps in
  let index := ((bufferIndex r + 1) mod n)%nat in
  let bufferSum := sum_upto buffer n in
  let avg := Num.floor (Num.div bufferSum (of_nat n)) in
  (* Call the appropriate callbacks. *)
  let decision :=
    if negb (updatingTargetFps r) &&
       ((useAverage c && Num.gt bufferSum (Num.mul (targetFps r) (of_nat n)))
        || (negb (useAverage c) && Num.gt fps (targetFps r)))
    then [Call Action frames fps avg maxFps']
    else if hasInaction c then [Call Inaction frames fps avg maxFps']
    else [] in
  let always :=
    if hasAlways c then [Call Always frames fps avg maxFps'] else [] in
  let w1 :=
    {| cfg := c;
       obj :=
         {| frames_ := frames; lastTime := time; this_fps := this_fps r;
            maxFps := maxFps'; minFps := minFps r; avgFps := Some avg;
            fpsBuffer := buffer; bufferIndex := index;
            targetFps := targetFps r; timeout_ := timeout_ r;
            request_ := request_ r; timeout := timeout r;
            request := request r; frameCount := frameCount r;
            calibrateTargetBuffer_ := calibrateTargetBuffer_ r;
            updatingTargetFps := updatingTargetFps r |};
       host := invoke (decision ++ always) (host w) |} in
  let w1 :=
    if existsb (cancels c) (decision ++ always) then cancel w1 else w1 in
  (* If calibrating the target FPS, call the appropriate method. *)
  let* w2 :=
    if updatingTargetFps (obj w1) then updateCalibrationBuffer_ fps w1
    else Ok w1 in
  (* Request another frame to iterate after a certain timeout. *)
  let (h, id) := setTimeout TRequestFrame (loopTimeout c) (host w2) in
  Ok {| cfg := cfg w2; obj := set_timeout (Some id) (obj w2); host := h |}.

(** ** Host events *)

Definition drop_timer (id : nat) (h : Host) : Host := clearTimeout (Some id) h.
Definition drop_frame (id : nat) (h : Host) : Host :=
  cancelAnimationFrame (Some id) h.

(** The host runs the pending timer [id]; nothing happens when no such timer
    is pending. *)
Definition fire_timeout (id : nat) (w : World) : World :=
  match List.find (fun t => Nat.eqb (timer_id t) id) (timers (host w)) with
  | None => w
  | Some t =>
      let w := with_host (drop_timer id (host w)) w in
      match timer_task t with
      | TRequestFrame =>
          (* this.request = requestAnimationFrame(this.loop); *)
          let (h, id) := requestAnimationFrame (host w) in
          {| cfg := cfg w; obj := set_request (Some id) (obj w); host := h |}
      | TCalibrate =>
          (* this.calibrateTargetFps(); *)
          calibrateTargetFps None w
      end
  end.

(** The host runs the pending animation frame [id] at clock reading [time];
    nothing happens when no such frame is pending. *)
Definition fire_frame (id : nat) (time : num) (w : World) : result World :=
  if existsb (Nat.eqb id) (frames (host w)) then
    loop time (with_host (drop_frame id (host w)) w)
  else Ok w.

(** ** Runs *)

(** What can happen to an instance: a method called by the user, or a
    pending timer or animation frame run by the host. *)
Inductive op : Type :=
| OpLoop (time : num)
| OpCancel
| OpCalibrate (frameCount : option num)
| OpUpdateCalibration (fps : num)
| OpTimeout (id : nat)
| OpFrame (id : nat) (time : num).

Definition run_op (o : op) (w : World) : result World :=
  match o with
  | OpLoop time => loop time w
  | OpCancel => Ok (cancel w)
  | OpCalibrate frameCount => Ok (calibrateTargetFps frameCount w)
  | OpUpdateCalibration fps => updateCalibrationBuffer_ fps w
  | OpTimeout id => Ok (fire_timeout id w)
  | OpFrame id time => fire_frame id time w
  end.

Fixpoint run (os : list op) (w : World) : result World :=
  match os with
  | [] => Ok w
  | o :: os => let* w' := run_op o w in run os w'
  end.

(** The states an instance can be in: what a successful construction
    returns, and what a method or host event leads to from there. *)
Inductive reachable : World -> Prop :=
| reach_new options now w :
    Raft options now = Ok w -> reachable w
| reach_op o w w' :
    reachable w -> run_op o w = Ok w' -> reachable w'.

(** The callbacks called between two states of the log. *)
Definition new_calls (w w' : World) : list call :=
  drop (length (calls (host w))) (calls (host w')).

Definition is_fn (f : callback) (c : call) : bool :=
  match f, call_fn c with
  | Action, Action | Inaction, Inaction | Always, Always => true
  | _, _ => false
  end.

Definition invoked (f : callback) (cs : list call) : bool :=
  existsb (is_fn f) cs.

(** ** Vocabulary of the properties *)

(** The condition under which an iteration calls the action callback, from
    the state before it, the measured [fps] and the buffer sum. *)
Definition step_decision (w : World) (fps bufferSum : num) : bool :=
  negb (updatingTargetFps (obj w)) &&
  ((useAverage (cfg w) &&
    Num.gt bufferSum
      (Num.mul (targetFps (obj w))
         (of_nat (Pos.to_nat (fpsBufferLength (cfg w))))))
   || (negb (useAverage (cfg w)) && Num.gt fps (targetFps (obj w)))).

(** What [loop] leaves behind when it returns. *)
Record stepped (time : num) (w w' : World) : Prop := {
  st_cfg : cfg w' = cfg w;
  st_frames : frames_ (obj w') = (frames_ (obj w) + 1)%Z;
  st_lastTime : lastTime (obj w') = time;
  st_max :
    maxFps (obj w') =
    if Num.gt (measure time (lastTime (obj w))) (maxFps (obj w))
    then measure time (lastTime (obj w)) else maxFps (obj w);
  st_min : minFps (obj w') = minFps (obj w);
  st_buffer :
    fpsBuffer (obj w') =
    array_set (fpsBuffer (obj w)) (bufferIndex (obj w))
      (measure time (lastTime (obj w)));
  st_index :
    bufferIndex (obj w') =
    ((bufferIndex (obj w) + 1) mod Pos.to_nat (fpsBufferLength (cfg w)))%nat;
  st_avg :
    avgFps (obj w') =
    Some (Num.floor
            (Num.div
               (sum_upto (fpsBuffer (obj w'))
                  (Pos.to_nat (fpsBufferLength (cfg w))))
               (of_nat (Pos.to_nat (fpsBufferLength (cfg w))))));
  st_calls :
    let fps := measure time (lastTime (obj w)) in
    let bufferSum :=
      sum_upto (fpsBuffer (obj w')) (Pos.to_nat (fpsBufferLength (cfg w))) in
    let args f :=
      Call f (frames_ (obj w')) fps (to_number (avgFps (obj w')))
        (maxFps (obj w')) in
    calls (host w') =
    calls (host w)
    ++ (if step_decision w fps bufferSum then [args Action]
        else if hasInaction (cfg w) then [args Inaction] else [])
    ++ (if hasAlways (cfg w) then [args Always] else []);
  st_calibrating :
    updatingTargetFps (obj w') = true ->
    calibrateTargetBuffer_ (obj w') <> None
}.

Record wf (w : World) : Prop := {
  wf_length :
    length (fpsBuffer (obj w)) = Pos.to_nat (fpsBufferLength (cfg w));
  wf_index :
    (bufferIndex (obj w) < Pos.to_nat (fpsBufferLength (cfg w)))%nat;
  wf_max : maxFps (obj w) <> NaN;
  wf_min : minFps (obj w) = PInf;
  wf_calibrating :
    updatingTargetFps (obj w) = true ->
    calibrateTargetBuffer_ (obj w) <> None;
  wf_useAverage : useAverage (cfg w) = true;
  wf_period : calibrationPeriod (cfg w) = None
}.

Record untouched (w w' : World) : Prop := {
  un_cfg : cfg w' = cfg w;
  un_frames : frames_ (obj w') = frames_ (obj w);
  un_lastTime : lastTime (obj w') = lastTime (obj w);
  un_max : maxFps (obj w') = maxFps (obj w);
  un_min : minFps (obj w') = minFps (obj w);
  un_avg : avgFps (obj w') = avgFps (obj w);
  un_buffer : fpsBuffer (obj w') = fpsBuffer (obj w);
  un_index : bufferIndex (obj w') = bufferIndex (obj w);
  un_calls : calls (host w') = calls (host w)
}.

(** Every pending timer that would request a frame is the one [this.timeout]
    names, every pending frame is the one [this.request] names, and the two
    are never pending together: the loop was started once and has been
    rescheduling itself since. *)
Definition single_chain (w : World) : Prop :=
  (forall t, t ∈ timers (host w) -> timer_task t = TRequestFrame ->
             timeout (obj w) = Some (timer_id t)) /\
  (forall f, f ∈ frames (host w) -> request (obj w) = Some f) /\
  (forall t f, t ∈ timers (host w) -> timer_task t = TRequestFrame ->
               f ∉ frames (host w)).

(** Nothing pending would run an iteration. *)
Definition no_pending_step (w : World) : Prop :=
  (forall t, t ∈ timers (host w) -> timer_task t <> TRequestFrame) /\
  (forall f, f ∉ frames (host w)).

(** The operations the host performs by itself. *)
Definition host_event (o : op) : bool :=
  match o with
  | OpTimeout _ | OpFrame _ _ => true
  | _ => false
  end.

(** The operations that keep a single chain: anything but a call of
    [loop()] by the user while an iteration is already scheduled. *)
Definition keeps_chain (o : op) (w : World) : Prop :=
  match o with
  | OpLoop _ => no_pending_step w
  | _ => True
  end.

(** A run in which [loop()] is only called when nothing is scheduled. *)
Fixpoint keeps_chain_run (os : list op) (w : World) : Prop :=
  match os with
  | [] => True
  | o :: os =>
      keeps_chain o w /\
      match run_op o w with
      | Ok w' => keeps_chain_run os w'
      | Err _ => True
      end
  end.

(** ** Instances used in the examples *)

Definition default_options : Options :=
  {| opt_useAverage := None; opt_fpsBufferLength := None;
     opt_loopTimeout := None; opt_targetFps := None;
     opt_calibrationPeriod := None; opt_inaction := true;
     opt_always := true; opt_cancels := fun _ => false |}.

(** [new Raft({inaction: f, always: g})] at clock reading [0]. *)
Definition default_raft : World :=
  {| cfg :=
       {| useAverage := true; fpsBufferLength := 3; loopTimeout := zero;
          calibrationPeriod := None; hasInaction := true;
          hasAlways := true; cancels := fun _ => false |};
     obj :=
       {| frames_ := 0; lastTime := zero; this_fps := None; maxFps := zero;
          minFps := PInf; avgFps := None; fpsBuffer := [zero; zero; zero];
          bufferIndex := 0; targetFps := Fin (121 # 2); timeout_ := None;
          request_ := None; timeout := None; request := None;
          frameCount := None; calibrateTargetBuffer_ := None;
          updatingTargetFps := false |};
     host := new_host |}.

(** [new Raft({inaction: f, always: g})] when [Date.now()] reads a wall-clock
    time in milliseconds. *)
Definition wall_clock_raft : World :=
  {| cfg := cfg default_raft;
     obj :=
       {| frames_ := 0; lastTime := of_Z 1700000000000; this_fps := None;
          maxFps := zero; minFps := PInf; avgFps := None;
          fpsBuffer := [zero; zero; zero]; bufferIndex := 0;
          targetFps := Fin (121 # 2); timeout_ := None; request_ := None;
          timeout := None; request := None; frameCount := None;
          calibrateTargetBuffer_ := None; updatingTargetFps := false |};
     host := new_host |}.

(** [new Raft({inaction: f, always: g})], then [calibrateTargetFps(2)]. *)
Definition calibrating_raft : World :=
  calibrateTargetFps (Some (of_Z 2)) default_raft.

Definition instantaneous_options : Options :=
  {| opt_useAverage := Some false; opt_fpsBufferLength := None;
     opt_loopTimeout := None; opt_targetFps := Some (of_Z 30);
     opt_calibrationPeriod := None; opt_inaction := true;
     opt_always := false; opt_cancels := fun _ => false |}.

(** [new Raft({useAverage: false, targetFps: 30, inaction: f})] at clock
    reading [0]. *)
Definition instantaneous_raft : World :=
  {| cfg :=
       {| useAverage := true; fpsBufferLength := 3; loopTimeout := zero;
          calibrationPeriod := None; hasInaction := true;
          hasAlways := false; cancels := fun _ => false |};
     obj :=
       {| frames_ := 0; lastTime := zero; this_fps := None; maxFps := zero;
          minFps := PInf; avgFps := None; fpsBuffer := [zero; zero; zero];
          bufferIndex := 0; targetFps := of_Z 30; timeout_ := None;
          request_ := None; timeout := None; request := None;
          frameCount := None; calibrateTargetBuffer_ := None;
          updatingTargetFps := false |};
     host := new_host |}.

(** [new Raft({targetFps: 0.3333333333333333, inaction: f})] *)
Definition third_options : Options :=
  {| opt_useAverage := None; opt_fpsBufferLength := None;
     opt_loopTimeout := None; opt_targetFps := Some (Fin (1 # 3));
     opt_calibrationPeriod := None; opt_inaction := true;
     opt_always := false; opt_cancels := fun _ => false |}.

(** [new Raft({always: function () { raft.cancel(); }})] *)
Definition cancelling_options : Options :=
  {| opt_useAverage := None; opt_fpsBufferLength := None;
     opt_loopTimeout := None; opt_targetFps := None;
     opt_calibrationPeriod := None; opt_inaction := false;
     opt_always := true; opt_cancels := is_fn Always |}.

(** [new Raft({always: function () { raft.cancel(); }})] at clock reading
    [0]. *)
Definition cancelling_raft : World :=
  {| cfg :=
       {| useAverage := true; fpsBufferLength := 3; loopTimeout := zero;
          calibrationPeriod := None; hasInaction := false;
          hasAlways := true; cancels := is_fn Always |};
     obj := obj default_raft;
     host := new_host |}.

(** The instance of [default_raft] after its first iteration, at clock
    reading [100]: one timer is pending. *)
Definition started_raft : World :=
  Eval vm_compute in
    match loop (of_Z 100) default_raft with
    | Ok w => w
    | Err _ => default_raft
    end.

(** The instance of [default_raft] after two iterations, the first started
    by a call of [loop()] and the second run by the host, at the clock
    readings [100] and [101]. *)
Definition two_steps_raft : World :=
  Eval vm_compute in
    match run [OpLoop (of_Z 100); OpTimeout 1; OpFrame 1 (of_Z 101)]
            default_raft with
    | Ok w => w
    | Err _ => default_raft
    end.

(** ** Vocabulary of the further properties *)

(** The samples a sequence of iterations measures, from the last recorded
    time and the clock readings of the iterations. *)
Fixpoint samples (last : num) (times : list num) : list num :=
  match times with
  | [] => []
  | time :: times => measure time last :: samples time times
  end.

(** The calls of one callback in a log. *)
Definition calls_of (f : callback) (cs : list call) : list call :=
  List.filter (is_fn f) cs.

(** The calls of one callback made by iteration number [k]. *)
Definition calls_at (f : callback) (k : Z) (cs : list call) : list call :=
  List.filter (fun c => is_fn f c && (call_frame c =? k)%Z) cs.

(** A number that is neither an infinity nor [NaN]. *)
Definition finite (a : num) : bool :=
  match a with
  | S754_zero _ | S754_finite _ _ _ => true
  | _ => false
  end.

(** Two numbers that are the same double; the two zeros are not. *)
Definition same (a b : num) : bool :=
  match a, b with
  | S754_zero s, S754_zero s' => Bool.eqb s s'
  | S754_infinity s, S754_infinity s' => Bool.eqb s s'
  | S754_nan, S754_nan => true
  | S754_finite s m e, S754_finite s' m' e' =>
      Bool.eqb s s' && Pos.eqb m m' && Z.eqb e e'
  | _, _ => false
  end.

(** The largest frame count the calibration is followed for. *)
Definition max_count : Z := 4096.

(** The counter [c] is truthy, [c - 1] is computed exactly, and the test
    [c - 1 < 1] of [updateCalibrationBuffer_] is that of the integers. *)
Definition counts_down (c : Z) : bool :=
  Num.truthy (of_Z c) &&
  same (Num.sub (of_Z c) one) (of_Z (c - 1)) &&
  Bool.eqb (Num.lt (of_Z (c - 1)) one) (c - 1 <? 1)%Z.

(** An operation that is not a direct call of [updateCalibrationBuffer_]. *)
Definition not_update (o : op) : bool :=
  match o with
  | OpUpdateCalibration _ => false
  | _ => true
  end.

(** An operation that is not a call of [calibrateTargetFps]. *)
Definition not_calibrate (o : op) : bool :=
  match o with
  | OpCalibrate _ => false
  | _ => true
  end.

(** An operation that neither cancels nor starts the loop by hand. *)
Definition keeps_running (o : op) : bool :=
  match o with
  | OpLoop _ | OpCancel => false
  | _ => true
  end.

(** Exactly one step of the loop is scheduled: the timer [this.timeout]
    names, or the animation frame [this.request] names, and nothing else. *)
Definition one_pending (w : World) : Prop :=
  (exists id delay,
     timers (host w) = [Timer id TRequestFrame delay] /\
     frames (host w) = [] /\
     timeout (obj w) = Some id) \/
  (exists f,
     timers (host w) = [] /\
     frames (host w) = [f] /\
     request (obj w) = Some f).

(** [{calibrationPeriod: 1000}] *)
Definition periodic_options : Options :=
  {| opt_useAverage := None; opt_fpsBufferLength := None;
     opt_loopTimeout := None; opt_targetFps := None;
     opt_calibrationPeriod := Some (of_Z 1000); opt_inaction := false;
     opt_always := false; opt_cancels := fun _ => false |}.


(** * Properties *)

(** ** Numbers *)

Section NumFacts.

Lemma le_refl (a : num) : a <> NaN -> Num.le a a = true.
Proof.
  unfold Num.le, SFleb.
  destruct a as [s|s| |s m e]; simpl; try done.
  - by destruct s.
  - intros _. rewrite Z.compare_refl.
    change (Pos.compare_cont Eq m m) with (m ?= m)%positive.
    rewrite Pos.compare_refl. by destruct s.
Qed.

Lemma gt_le (a b : num) : Num.gt a b = true -> Num.le b a = true.
Proof.
  unfold Num.gt, Num.lt, Num.le, SFltb, SFleb.
  by destruct (SFcompare b a) as [[]|].
Qed.

Lemma gt_not_nan (a b : num) : Num.gt a b = true -> a <> NaN.
Proof.
  unfold Num.gt, Num.lt, SFltb. intros H ->.
  by destruct b.
Qed.

Lemma le_trans (a b c : num) :
  Num.le a b = true -> Num.le b c = true -> Num.le a c = true.
Proof.
  unfold Num.le, SFleb.
  destruct a as [sa|sa| |sa ma ea], b as [sb|sb| |sb mb eb],
    c as [sc|sc| |sc mc ec]; simpl; try done;
    try (by destruct sa, sb, sc).
  change (Pos.compare_cont Eq ma mb) with (ma ?= mb)%positive.
  change (Pos.compare_cont Eq mb mc) with (mb ?= mc)%positive.
  change (Pos.compare_cont Eq ma mc) with (ma ?= mc)%positive.
  destruct sa, sb, sc; try done;
    destruct (Z.compare_spec ea eb), (Z.compare_spec eb ec),
      (Z.compare_spec ea ec); try done; try lia;
    destruct (Pos.compare_spec ma mb), (Pos.compare_spec mb mc),
      (Pos.compare_spec ma mc); try done; lia.
Qed.

(** Nothing but [NaN] fails to be at most [Infinity]. *)
Lemma le_PInf (a : num) : a <> NaN -> Num.le a PInf = true.
Proof.
  unfold Num.le, SFleb. destruct a as [s|s| |s m e]; simpl; try done.
  by destruct s.
Qed.

(** A number [Infinity] does not exceed is [Infinity] or [NaN]. *)
Lemma not_lt_PInf (a : num) :
  Num.lt a PInf = false -> a = PInf \/ a = NaN.
Proof.
  unfold Num.lt, SFltb. destruct a as [s|s| |s m e]; simpl; try done.
  - destruct s; [done | by left].
  - by right.
Qed.

(** A finite number minus itself is the positive zero. *)
Lemma sub_diag (a : num) : finite a = true -> Num.sub a a = zero.
Proof.
  unfold Num.sub, SFsub. destruct a as [s|s| |s m e]; simpl; try done.
  - by destruct s.
  - intros _. rewrite Z.min_id.
    destruct (shl_align m e e) as [m' e'] eqn:E. simpl.
    by rewrite Z.sub_diag.
Qed.

(** [1000 / 0] is [Infinity]. *)
Lemma measure_same_instant (t : num) :
  finite t = true -> measure t t = PInf.
Proof. intros H. unfold measure. by rewrite sub_diag. Qed.

End NumFacts.
(** ** Arrays *)

Section ArrayFacts.

Lemma array_set_in_range (xs : list num) (i : nat) (v : num) :
  (i < length xs)%nat -> array_set xs i v = <[i:=v]> xs.
Proof.
  intros H. unfold array_set.
  destruct (Nat.ltb_spec i (length xs)); [reflexivity | lia].
Qed.

Lemma array_set_length (xs : list num) (i : nat) (v : num) :
  (i < length xs)%nat -> length (array_set xs i v) = length xs.
Proof.
  intros H. rewrite array_set_in_range by assumption. apply length_insert.
Qed.

Lemma array_get_app_l (xs ys : list num) (i : nat) :
  (i < length xs)%nat -> array_get (xs ++ ys) i = array_get xs i.
Proof.
  intros H. unfold array_get. by rewrite lookup_app_l.
Qed.

Lemma array_get_middle (xs ys : list num) (x : num) :
  array_get (xs ++ x :: ys) (length xs) = x.
Proof.
  unfold array_get. by rewrite list_lookup_middle.
Qed.

Lemma sum_prefix (xs ys : list num) (k : nat) (acc : num) :
  (k <= length xs)%nat ->
  fold_left (fun a i => Num.add a (array_get (xs ++ ys) i)) (seq 0 k) acc =
  fold_left (fun a i => Num.add a (array_get xs i)) (seq 0 k) acc.
Proof.
  induction k as [|k IH]; intros Hk; [reflexivity|].
  rewrite seq_S, !fold_left_app. simpl.
  rewrite IH by lia. by rewrite array_get_app_l by lia.
Qed.

(** The loop that sums the first [length xs] slots adds up the whole
    array. *)
Lemma sum_upto_total (xs : list num) : sum_upto xs (length xs) = total xs.
Proof.
  unfold sum_upto, total.
  induction xs as [|x xs IH] using rev_ind; [reflexivity|].
  rewrite length_app. simpl. rewrite Nat.add_1_r, seq_S, !fold_left_app.
  simpl. rewrite sum_prefix by lia. rewrite IH.
  by rewrite array_get_middle.
Qed.

Lemma fill_prefix (n k : nat) :
  (k <= n)%nat ->
  fold_left (fun xs i => array_set xs i zero) (seq 0 k) (replicate n NaN) =
  replicate k zero ++ replicate (n - k) NaN.
Proof.
  induction k as [|k IH]; intros Hk.
  - simpl. by rewrite Nat.sub_0_r.
  - rewrite replicate_S_end, seq_S, fold_left_app, IH by lia.
    cbn [fold_left Nat.add].
    rewrite array_set_in_range
      by (rewrite length_app, !length_replicate; lia).
    rewrite insert_app_r_alt by (rewrite length_replicate; lia).
    rewrite length_replicate, Nat.sub_diag.
    replace (n - k)%nat with (S (n - S k)) by lia.
    by rewrite <- app_assoc.
Qed.

(** The constructor's buffer is [n] zeros. *)
Lemma new_fpsBuffer_zeros (n : nat) : new_fpsBuffer n = replicate n zero.
Proof.
  unfold new_fpsBuffer. rewrite fill_prefix by lia.
  rewrite Nat.sub_diag. simpl. apply app_nil_r.
Qed.

End ArrayFacts.

(** ** One iteration of the loop *)

Lemma calls_clearTimeout (handle : option nat) (h : Host) :
  calls (clearTimeout handle h) = calls h.
Proof. by destruct handle. Qed.

Lemma calls_cancelAnimationFrame (handle : option nat) (h : Host) :
  calls (cancelAnimationFrame handle h) = calls h.
Proof. by destruct handle. Qed.

Lemma loop_stepped (time : num) (w w' : World) :
  loop time w = Ok w' -> stepped time w w'.
Proof.
  unfold loop, cancel, with_host.
  destruct (existsb _ _); cbn [obj updatingTargetFps];
    (destruct (updatingTargetFps (obj w)) eqn:Hu;
     [ unfold updateCalibrationBuffer_;
       cbn [obj calibrateTargetBuffer_ bind];
       destruct (calibrateTargetBuffer_ (obj w)) as [buffer|];
         [|discriminate];
       cbn [frameCount];
       destruct (Num.lt _ one)
     | ]);
    cbn [bind setTimeout host cfg obj];
    intros [= <-]; split; cbn; unfold step_decision; rewrite ?Hu;
    rewrite ?calls_cancelAnimationFrame, ?calls_clearTimeout;
    first [reflexivity | congruence].
Qed.

(** [loop] throws only when it is calibrating without a calibration
    buffer. *)
Lemma loop_returns (time : num) (w : World) :
  (updatingTargetFps (obj w) = true ->
   calibrateTargetBuffer_ (obj w) <> None) ->
  exists w', loop time w = Ok w'.
Proof.
  intros H. unfold loop, cancel, with_host.
  destruct (existsb _ _); cbn [obj updatingTargetFps];
    (destruct (updatingTargetFps (obj w)) eqn:Hu;
     [ unfold updateCalibrationBuffer_;
       cbn [obj calibrateTargetBuffer_ bind];
       destruct (calibrateTargetBuffer_ (obj w)) as [buffer|];
         [|by destruct H];
       cbn [frameCount];
       destruct (Num.lt _ one)
     | ]);
    cbn [bind setTimeout host cfg obj]; eexists; reflexivity.
Qed.

(** ** The invariant of an instance *)

Lemma wf_with_host (h : Host) (w : World) : wf w -> wf (with_host h w).
Proof. intros []; by split. Qed.

Lemma bool_or_true (x : option bool) : bool_or x true = true.
Proof. by destruct x as [[]|]. Qed.

Lemma num_or_truthy (x : option num) (d : num) :
  Num.truthy d = true -> Num.truthy (num_or x d) = true.
Proof.
  intros Hd. unfold num_or. destruct x as [v|]; [|assumption].
  by destruct (Num.truthy v) eqn:Hv.
Qed.

(** A truthy number that is an integer is not [0]. *)
Lemma to_integer_truthy (a : num) (n : Z) :
  Num.truthy a = true -> Num.to_integer a = Some n -> n <> 0%Z.
Proof.
  destruct a as [s|s| |s m e]; try done. cbn. intros _.
  destruct (Z.leb_spec 0 e).
  - intros [= <-]. assert (0 < 2 ^ e)%Z by (apply Z.pow_pos_nonneg; lia).
    destruct s; cbn; nia.
  - destruct (Z.eqb_spec (Z.pos m mod 2 ^ (- e)) 0) as [Hm|]; [|done].
    intros [= <-].
    assert (Hp : (0 < 2 ^ (- e))%Z) by (apply Z.pow_pos_nonneg; lia).
    pose proof (Z.div_mod (Z.pos m) (2 ^ (- e)) ltac:(lia)) as Hd.
    rewrite Hm in Hd. destruct s; cbn; nia.
Qed.

(** The lengths [new Array] accepts from the constructor. *)
Lemma array_length_bounds (len : num) (n : Z) :
  Num.truthy len = true -> array_length len = Ok n ->
  Num.to_integer len = Some n /\ (0 < n < 2 ^ 32)%Z.
Proof.
  intros Ht. unfold array_length.
  destruct (Num.to_integer len) as [k|] eqn:Hk; [|done].
  pose proof (to_integer_truthy _ _ Ht Hk).
  destruct (Z.leb_spec 0 k); [|done].
  destruct (Z.ltb_spec k (2 ^ 32)); [|done].
  intros [= <-]. split; [done | lia].
Qed.

(** What a successful construction returns. *)
Lemma Raft_returns (options : Options) (now : num) (w : World) :
  Raft options now = Ok w ->
  exists n : Z,
  array_length (num_or (opt_fpsBufferLength options) (of_Z 3)) = Ok n /\
  (0 < n < 2 ^ 32)%Z /\
  num_or_null (opt_calibrationPeriod options) = None /\
  w = {| cfg :=
           {| useAverage := true;
              fpsBufferLength := Z.to_pos n;
              loopTimeout := num_or (opt_loopTimeout options) zero;
              calibrationPeriod := None;
              hasInaction := opt_inaction options;
              hasAlways := opt_always options;
              cancels := opt_cancels options |};
         obj :=
           {| frames_ := 0;
              lastTime := now;
              this_fps := None;
              maxFps := zero;
              minFps := PInf;
              avgFps := None;
              fpsBuffer := replicate (Z.to_nat n) zero;
              bufferIndex := 0;
              targetFps := num_or (opt_targetFps options) (Fin (121 # 2));
              timeout_ := None;
              request_ := None;
              timeout := None;
              request := None;
              frameCount := None;
              calibrateTargetBuffer_ := None;
              updatingTargetFps := false |};
         host := new_host |}.
Proof.
  intros H. unfold Raft in H.
  destruct (array_length _) as [n|] eqn:Hn; [|discriminate].
  cbn [bind] in H.
  apply array_length_bounds in Hn as Hb; [|by apply num_or_truthy].
  destruct (num_or_null (opt_calibrationPeriod options)); [discriminate|].
  rewrite bool_or_true, new_fpsBuffer_zeros in H.
  exists n. split; [done|]. split; [apply Hb|]. split; [reflexivity|].
  congruence.
Qed.

Lemma Raft_wf (options : Options) (now : num) (w : World) :
  Raft options now = Ok w -> wf w.
Proof.
  intros H. apply Raft_returns in H as (n & _ & Hn & _ & ->).
  split; cbn; try congruence.
  - rewrite length_replicate. lia.
  - lia.
  - discriminate.
Qed.

Lemma loop_wf (time : num) (w w' : World) :
  wf w -> loop time w = Ok w' -> wf w'.
Proof.
  intros Hw H. apply loop_stepped in H. destruct H, Hw.
  split; rewrite ?st_cfg0; try congruence; try assumption.
  - rewrite st_buffer0, array_set_length; [assumption | lia].
  - rewrite st_index0. apply Nat.mod_upper_bound. lia.
  - rewrite st_max0.
    destruct (Num.gt _ _) eqn:Hgt; [|assumption].
    by apply gt_not_nan in Hgt.
Qed.

Lemma calibrateTargetFps_wf (frameCount : option num) (w : World) :
  wf w -> wf (calibrateTargetFps frameCount w).
Proof.
  intros Hw. unfold calibrateTargetFps.
  rewrite (wf_period _ Hw). destruct Hw. split; cbn; done.
Qed.

Lemma updateCalibrationBuffer_wf (fps : num) (w w' : World) :
  wf w -> updateCalibrationBuffer_ fps w = Ok w' -> wf w'.
Proof.
  intros []. unfold updateCalibrationBuffer_.
  destruct (calibrateTargetBuffer_ (obj w)); [|discriminate].
  destruct (Num.lt _ _); intros [= <-]; split; cbn; done.
Qed.

Lemma fire_timeout_wf (id : nat) (w : World) : wf w -> wf (fire_timeout id w).
Proof.
  intros Hw. unfold fire_timeout.
  destruct (List.find _ _) as [t|]; [|assumption].
  destruct (timer_task t).
  - destruct Hw. split; cbn; assumption.
  - by apply calibrateTargetFps_wf, wf_with_host.
Qed.

Lemma run_op_wf (o : op) (w w' : World) :
  wf w -> run_op o w = Ok w' -> wf w'.
Proof.
  intros Hw. destruct o; cbn.
  - by apply loop_wf.
  - intros [= <-]. by apply wf_with_host.
  - intros [= <-]. by apply calibrateTargetFps_wf.
  - by apply updateCalibrationBuffer_wf.
  - intros [= <-]. by apply fire_timeout_wf.
  - unfold fire_frame. destruct (existsb _ _).
    + by apply loop_wf, wf_with_host.
    + by intros [= <-].
Qed.

Lemma reachable_wf (w : World) : reachable w -> wf w.
Proof.
  induction 1 as [options now w H | o w w' _ IH H].
  - by apply Raft_wf in H.
  - by apply run_op_wf in H.
Qed.

Lemma run_wf (os : list op) (w w' : World) :
  wf w -> run os w = Ok w' -> wf w'.
Proof.
  revert w. induction os as [|o os IH]; intros w Hw; cbn.
  - by intros [= <-].
  - destruct (run_op o w) as [w1|] eqn:H1; [|discriminate]. cbn.
    apply IH. by apply run_op_wf in H1.
Qed.

(** ** What the operations other than [loop] leave alone *)

Lemma untouched_refl (w : World) : untouched w w.
Proof. by split. Qed.

Lemma cancel_untouched (w : World) : untouched w (cancel w).
Proof.
  unfold cancel, cancelAnimationFrame, clearTimeout.
  destruct (request (obj w)), (timeout (obj w)); by split.
Qed.

Lemma calibrateTargetFps_untouched (frameCount : option num) (w : World) :
  untouched w (calibrateTargetFps frameCount w).
Proof.
  unfold calibrateTargetFps. destruct (calibrationPeriod (cfg w)); by split.
Qed.

Lemma updateCalibrationBuffer_untouched (fps : num) (w w' : World) :
  updateCalibrationBuffer_ fps w = Ok w' -> untouched w w'.
Proof.
  unfold updateCalibrationBuffer_.
  destruct (calibrateTargetBuffer_ (obj w)); [|discriminate].
  destruct (Num.lt _ _); intros [= <-]; by split.
Qed.

Lemma fire_timeout_untouched (id : nat) (w : World) :
  untouched w (fire_timeout id w).
Proof.
  unfold fire_timeout.
  destruct (List.find _ _) as [t|]; [|apply untouched_refl].
  destruct (timer_task t).
  - by split.
  - unfold calibrateTargetFps. cbn [cfg with_host].
    destruct (calibrationPeriod (cfg w)); by split.
Qed.

(** Every operation either leaves the measurements alone or is one
    iteration of the loop. *)
Lemma run_op_cases (o : op) (w w' : World) :
  run_op o w = Ok w' ->
  untouched w w' \/ exists time h, stepped time (with_host h w) w'.
Proof.
  destruct o; cbn.
  - intros H. right. exists time, (host w).
    apply loop_stepped. by destruct w.
  - intros [= <-]. left. apply cancel_untouched.
  - intros [= <-]. left. apply calibrateTargetFps_untouched.
  - intros H. left. by apply updateCalibrationBuffer_untouched in H.
  - intros [= <-]. left. apply fire_timeout_untouched.
  - unfold fire_frame. destruct (existsb _ _).
    + intros H. right. exists time, (drop_frame id (host w)).
      by apply loop_stepped.
    + intros [= <-]. left. apply untouched_refl.
Qed.

Lemma run_op_cfg (o : op) (w w' : World) :
  run_op o w = Ok w' -> cfg w' = cfg w.
Proof.
  intros H. apply run_op_cases in H as [[]|(time & h & [])]; assumption.
Qed.

Lemma new_calls_app (w w' : World) (cs : list call) :
  calls (host w') = calls (host w) ++ cs -> new_calls w w' = cs.
Proof. intros H. unfold new_calls. rewrite H. apply drop_app_length. Qed.

(** ** The ring buffer and the average *)

(** Whatever the clock readings, a sequence of iterations returns. *)
Lemma loops_return (times : list num) (w : World) :
  wf w -> exists w', run (map OpLoop times) w = Ok w' /\ wf w'.
Proof.
  revert w. induction times as [|time times IH]; intros w Hw; cbn.
  - by exists w.
  - destruct (loop_returns time w (wf_calibrating _ Hw)) as [w1 H1].
    rewrite H1. cbn. apply IH. by apply loop_wf in H1.
Qed.

(** C5: in every state an instance can reach, whatever the clock readings
    of the iterations so far, no operation changes the length of the FPS
    ring buffer, which is the configured buffer length; and every iteration
    of the loop returns, leaving in [avgFps] the floor of the sum of the
    buffer divided by the buffer length. *)
Theorem fpsBuffer_length_fixed_and_avgFps (w : World) (H : reachable w) :
  length (fpsBuffer (obj w)) = Pos.to_nat (fpsBufferLength (cfg w)) /\
  (forall o w', run_op o w = Ok w' ->
     length (fpsBuffer (obj w')) = length (fpsBuffer (obj w)) /\
     fpsBufferLength (cfg w') = fpsBufferLength (cfg w)) /\
  (forall time, exists w',
     loop time w = Ok w' /\
     length (fpsBuffer (obj w')) = Pos.to_nat (fpsBufferLength (cfg w)) /\
     avgFps (obj w') =
     Some (Num.floor
             (Num.div (total (fpsBuffer (obj w')))
                (of_nat (Pos.to_nat (fpsBufferLength (cfg w))))))).
Proof.
  pose proof (reachable_wf w H) as Hw.
  split; [apply Hw|]. split.
  - intros o w' Ho.
    pose proof (run_op_wf o w w' Hw Ho) as Hw'.
    pose proof (run_op_cfg o w w' Ho) as Hc.
    rewrite (wf_length _ Hw), (wf_length _ Hw'), Hc. done.
  - intros time.
    destruct (loop_returns time w (wf_calibrating _ Hw)) as [w' Hl].
    exists w'. split; [assumption|].
    pose proof (loop_wf time w w' Hw Hl) as Hw'.
    pose proof (loop_stepped time w w' Hl) as Hs.
    assert (Hlen : length (fpsBuffer (obj w')) =
                   Pos.to_nat (fpsBufferLength (cfg w)))
      by (rewrite (wf_length _ Hw'), (st_cfg _ _ _ Hs); done).
    split; [assumption|].
    rewrite (st_avg _ _ _ Hs), <- Hlen, sum_upto_total. done.
Qed.

Lemma default_raft_new : Raft default_options zero = Ok default_raft.
Proof. vm_compute; reflexivity. Qed.

Lemma default_raft_reachable : reachable default_raft.
Proof. exact (reach_new _ _ _ default_raft_new). Qed.

Lemma fpsBuffer_length_fixed_and_avgFps_witness :
  reachable default_raft /\
  exists w',
    loop (of_Z 100) default_raft = Ok w' /\
    length (fpsBuffer (obj w')) = 3%nat /\
    avgFps (obj w') =
    Some (Num.floor (Num.div (total (fpsBuffer (obj w'))) (of_nat 3))).
Proof.
  split; [exact default_raft_reachable|].
  exact (proj2 (proj2 (fpsBuffer_length_fixed_and_avgFps default_raft
                         default_raft_reachable)) (of_Z 100)).
Defined.

(** ** The extremes *)

(** C10: [minFps], set to [Infinity] by the constructor, is [Infinity] in
    every state an instance can reach, and no operation (an iteration of the
    loop, [cancel], a calibration call, a host event) changes it. *)
Theorem minFps_never_modified (w : World) (H : reachable w) :
  minFps (obj w) = PInf /\
  forall o w', run_op o w = Ok w' -> minFps (obj w') = minFps (obj w).
Proof.
  pose proof (reachable_wf w H) as Hw.
  split; [apply Hw|].
  intros o w' Ho.
  apply run_op_cases in Ho as [Hu|(time & h & Hs)].
  - apply Hu.
  - apply (st_min _ _ _ Hs).
Qed.

Lemma minFps_never_modified_witness :
  reachable default_raft /\ minFps (obj default_raft) = PInf.
Proof.
  split; [exact default_raft_reachable|].
  exact (proj1 (minFps_never_modified default_raft default_raft_reachable)).
Defined.

Lemma run_op_maxFps (o : op) (w w' : World) :
  wf w -> run_op o w = Ok w' ->
  Num.le (maxFps (obj w)) (maxFps (obj w')) = true.
Proof.
  intros Hw Ho.
  apply run_op_cases in Ho as [Hu|(time & h & Hs)].
  - rewrite (un_max _ _ Hu). apply le_refl, Hw.
  - rewrite (st_max _ _ _ Hs). cbn [obj with_host].
    destruct (Num.gt _ _) eqn:Hgt.
    + by apply gt_le.
    + apply le_refl, Hw.
Qed.

(** C7: from a state an instance can reach, an iteration of the loop
    leaves a [maxFps] that is greater than or equal to the one before, and
    so does any sequence of operations: between the end of one iteration
    and the end of a later one [maxFps] never decreases. *)
Theorem maxFps_monotone (w : World) (H : reachable w) :
  (forall time w', loop time w = Ok w' ->
     Num.ge (maxFps (obj w')) (maxFps (obj w)) = true) /\
  (forall os w', run os w = Ok w' ->
     Num.ge (maxFps (obj w')) (maxFps (obj w)) = true).
Proof.
  pose proof (reachable_wf w H) as Hw. unfold Num.ge. split.
  - intros time w' Hl. by apply (run_op_maxFps (OpLoop time)).
  - intros os. clear H. revert w Hw.
    induction os as [|o os IH]; intros w Hw w'; cbn.
    + intros [= <-]. apply le_refl, Hw.
    + destruct (run_op o w) as [w1|] eqn:H1; [|discriminate]. cbn.
      intros Hr. apply le_trans with (maxFps (obj w1)).
      * by apply run_op_maxFps with o.
      * apply IH; [by apply run_op_wf in H1 | assumption].
Qed.

Lemma maxFps_monotone_witness :
  reachable default_raft /\
  forall w',
    run [OpLoop (of_Z 10); OpTimeout 1; OpFrame 1 (of_Z 1010)] default_raft =
    Ok w' ->
    Num.ge (maxFps (obj w')) (maxFps (obj default_raft)) = true.
Proof.
  split; [exact default_raft_reachable|].
  exact (proj2 (maxFps_monotone default_raft default_raft_reachable)
           [OpLoop (of_Z 10); OpTimeout 1%nat; OpFrame 1%nat (of_Z 1010)]).
Defined.

Example maxFps_after_two_iterations :
  exists w',
    run [OpLoop (of_Z 10); OpTimeout 1; OpFrame 1 (of_Z 1010)] default_raft =
    Ok w' /\
    frames_ (obj w') = 2%Z /\
    maxFps (obj w') = of_Z 100 /\
    fpsBuffer (obj w') = [of_Z 100; of_Z 1; zero].
Proof.
  eexists. split; [vm_compute; reflexivity|].
  split; [vm_compute; reflexivity|]. split; vm_compute; reflexivity.
Qed.

(** C6, as stated, fails: the constructor sets [maxFps] to [0], not to
    [-Infinity], and a first sample below [0] does not become the maximum.
    With [lastTime] taken from [Date.now()] and the first reading of the
    loop taken from [performance.now()] (50 ms after page load), the first
    sample is [-1] and [maxFps] stays [0]. *)
Lemma maxFps_initial_value_is_not_neg_infinity :
  Raft default_options (of_Z 1700000000000) = Ok wall_clock_raft /\
  maxFps (obj wall_clock_raft) <> NInf /\
  measure (of_Z 50) (lastTime (obj wall_clock_raft)) = of_Z (-1) /\
  exists w',
    loop (of_Z 50) wall_clock_raft = Ok w' /\
    maxFps (obj w') <> measure (of_Z 50) (lastTime (obj wall_clock_raft)).
Proof.
  split; [vm_compute; reflexivity|]. split; [by vm_compute|].
  split; [vm_compute; reflexivity|].
  eexists. split; [vm_compute; reflexivity|]. by vm_compute.
Qed.

(** C6, amended: a successful construction leaves [maxFps] at [0] and
    [minFps] at [Infinity]; the first iteration of the loop then sets
    [maxFps] to its sample when the sample is greater than [0] and leaves
    it at [0] otherwise. *)
Theorem construction_extremes (options : Options) (now : num) (w : World)
    (H : Raft options now = Ok w) :
  maxFps (obj w) = zero /\
  minFps (obj w) = PInf /\
  forall time, exists w',
    loop time w = Ok w' /\
    maxFps (obj w') =
    if Num.gt (measure time now) zero then measure time now else zero.
Proof.
  pose proof (Raft_wf _ _ _ H) as Hw.
  apply Raft_returns in H as (n & _ & _ & _ & Hr).
  split; [by rewrite Hr|]. split; [by rewrite Hr|].
  intros time.
  destruct (loop_returns time w (wf_calibrating _ Hw)) as [w' Hl].
  exists w'. split; [assumption|].
  rewrite (st_max _ _ _ (loop_stepped _ _ _ Hl)). by rewrite Hr.
Qed.

Lemma construction_extremes_witness :
  Raft default_options zero = Ok default_raft /\
  maxFps (obj default_raft) = zero /\
  minFps (obj default_raft) = PInf.
Proof.
  split; [exact default_raft_new|].
  pose proof (construction_extremes default_options zero default_raft
                default_raft_new) as (Hmax & Hmin & _).
  exact (conj Hmax Hmin).
Defined.

(** ** The callbacks of one iteration *)

(** In a state an instance can reach, [useAverage] is true and the buffer
    has its configured length, so the callbacks of an iteration are decided
    by the calibration flag and the sum of the whole buffer. *)
Lemma step_calls (time : num) (w w' : World) :
  wf w -> loop time w = Ok w' ->
  let fps := measure time (lastTime (obj w)) in
  let args f :=
    Call f (frames_ (obj w')) fps (to_number (avgFps (obj w')))
      (maxFps (obj w')) in
  new_calls w w' =
  (if negb (updatingTargetFps (obj w)) &&
      Num.gt (total (fpsBuffer (obj w')))
        (Num.mul (targetFps (obj w))
           (of_nat (Pos.to_nat (fpsBufferLength (cfg w)))))
   then [args Action]
   else if hasInaction (cfg w) then [args Inaction] else [])
  ++ (if hasAlways (cfg w) then [args Always] else []).
Proof.
  intros Hw Hl.
  pose proof (loop_wf _ _ _ Hw Hl) as Hw'.
  pose proof (loop_stepped _ _ _ Hl) as Hs.
  cbv zeta. apply new_calls_app. rewrite (st_calls _ _ _ Hs).
  unfold step_decision. rewrite (wf_useAverage _ Hw). cbn [negb andb orb].
  rewrite orb_false_r.
  rewrite <- (st_cfg _ _ _ Hs), <- (wf_length _ Hw'), sum_upto_total.
  reflexivity.
Qed.

Lemma calibrating_raft_reachable : reachable calibrating_raft.
Proof.
  exact (reach_op (OpCalibrate (Some (of_Z 2))) _ _ default_raft_reachable
           eq_refl).
Qed.

(** C1, as stated, fails: an iteration run while calibrating calls the
    inaction callback when one was given. *)
Lemma calibrating_step_calls_inaction :
  reachable calibrating_raft /\
  updatingTargetFps (obj calibrating_raft) = true /\
  exists w',
    loop (of_Z 100) calibrating_raft = Ok w' /\
    new_calls calibrating_raft w' =
    [Call Inaction 1 (of_Z 10) (of_Z 3) (of_Z 10);
     Call Always 1 (of_Z 10) (of_Z 3) (of_Z 10)] /\
    invoked Inaction (new_calls calibrating_raft w') = true.
Proof.
  split; [exact calibrating_raft_reachable|]. split; [reflexivity|].
  eexists. split; [vm_compute; reflexivity|]. split; vm_compute; reflexivity.
Qed.

(** C1, amended: an iteration run while calibration is active returns and
    does not call the action callback; it calls the inaction callback
    exactly when one was given, and the always callback exactly when one
    was given. *)
Theorem calibrating_step_callbacks (w : World) (time : num)
    (H : reachable w) (Hcal : updatingTargetFps (obj w) = true) :
  exists w',
    loop time w = Ok w' /\
    invoked Action (new_calls w w') = false /\
    invoked Inaction (new_calls w w') = hasInaction (cfg w) /\
    invoked Always (new_calls w w') = hasAlways (cfg w).
Proof.
  pose proof (reachable_wf w H) as Hw.
  destruct (loop_returns time w (wf_calibrating _ Hw)) as [w' Hl].
  exists w'. split; [assumption|].
  rewrite (step_calls _ _ _ Hw Hl), Hcal. cbn [negb andb].
  destruct (hasInaction (cfg w)), (hasAlways (cfg w)); repeat split.
Qed.

Lemma calibrating_step_callbacks_witness :
  reachable calibrating_raft /\
  updatingTargetFps (obj calibrating_raft) = true /\
  exists w',
    loop (of_Z 100) calibrating_raft = Ok w' /\
    invoked Action (new_calls calibrating_raft w') = false /\
    invoked Inaction (new_calls calibrating_raft w') = true /\
    invoked Always (new_calls calibrating_raft w') = true.
Proof.
  split; [exact calibrating_raft_reachable|]. split; [reflexivity|].
  exact (calibrating_step_callbacks calibrating_raft (of_Z 100)
           calibrating_raft_reachable eq_refl).
Defined.

(** C3: from a state an instance can reach, with [useAverage] true and
    calibration inactive, an iteration of the loop returns, and with
    [(frames_, fps, avgFps, maxFps)] the frame count, sample, average and
    maximum it has just computed: when the sum of the buffer is greater than
    [targetFps * fpsBufferLength] (the sum and the product being the doubles
    the code computes) it calls the action callback on these four
    values and does not call the inaction callback; otherwise it does not
    call the action callback and calls the inaction callback, when one was
    given, on these four values. *)
Theorem threshold_decision_on_average (w : World) (time : num)
    (H : reachable w)
    (Haverage : useAverage (cfg w) = true)
    (Hidle : updatingTargetFps (obj w) = false) :
  exists w',
    loop time w = Ok w' /\
    let cs := new_calls w w' in
    let args f :=
      Call f (frames_ (obj w')) (measure time (lastTime (obj w)))
        (to_number (avgFps (obj w'))) (maxFps (obj w')) in
    frames_ (obj w') = (frames_ (obj w) + 1)%Z /\
    avgFps (obj w') <> None /\
    if Num.gt (total (fpsBuffer (obj w')))
         (Num.mul (targetFps (obj w))
            (of_nat (Pos.to_nat (fpsBufferLength (cfg w)))))
    then
      cs = [args Action] ++ (if hasAlways (cfg w) then [args Always] else [])
      /\ invoked Action cs = true
      /\ invoked Inaction cs = false
    else
      cs = (if hasInaction (cfg w) then [args Inaction] else [])
           ++ (if hasAlways (cfg w) then [args Always] else [])
      /\ invoked Action cs = false
      /\ invoked Inaction cs = hasInaction (cfg w).
Proof.
  pose proof (reachable_wf w H) as Hw.
  destruct (loop_returns time w (wf_calibrating _ Hw)) as [w' Hl].
  exists w'. split; [assumption|]. cbv zeta.
  pose proof (loop_stepped _ _ _ Hl) as Hs.
  split; [apply Hs|]. split; [by rewrite (st_avg _ _ _ Hs)|].
  rewrite (step_calls _ _ _ Hw Hl), Hidle. cbn [negb andb].
  destruct (Num.gt _ _), (hasInaction (cfg w)), (hasAlways (cfg w));
    repeat split.
Qed.

Lemma threshold_decision_on_average_witness :
  reachable default_raft /\
  useAverage (cfg default_raft) = true /\
  updatingTargetFps (obj default_raft) = false /\
  exists w',
    loop (of_Z 1) default_raft = Ok w' /\
    frames_ (obj w') = 1%Z /\
    avgFps (obj w') <> None.
Proof.
  split; [exact default_raft_reachable|].
  split; [reflexivity|]. split; [reflexivity|].
  destruct (threshold_decision_on_average default_raft (of_Z 1)
              default_raft_reachable eq_refl eq_refl)
    as (w' & Hl & Hframes & Havg & _).
  exists w'. exact (conj Hl (conj Hframes Havg)).
Defined.

Example threshold_decision_above :
  exists w',
    loop (of_Z 1) default_raft = Ok w' /\
    total (fpsBuffer (obj w')) = of_Z 1000 /\
    new_calls default_raft w' =
    [Call Action 1 (of_Z 1000) (of_Z 333) (of_Z 1000);
     Call Always 1 (of_Z 1000) (of_Z 333) (of_Z 1000)].
Proof.
  eexists. split; [vm_compute; reflexivity|].
  split; vm_compute; reflexivity.
Qed.

(** The product [targetFps * fpsBufferLength] is the rounded one: with a
    target of [0.3333333333333333] and a buffer of three the threshold is
    [1], which a buffer sum of [1] does not exceed. *)
Example threshold_product_is_rounded :
  exists w w',
    Raft third_options zero = Ok w /\
    Num.mul (targetFps (obj w)) (of_nat 3) = one /\
    loop (of_Z 1000) w = Ok w' /\
    total (fpsBuffer (obj w')) = one /\
    new_calls w w' = [Call Inaction 1 one zero one].
Proof.
  eexists. eexists. split; [vm_compute; reflexivity|].
  split; [vm_compute; reflexivity|]. split; [vm_compute; reflexivity|].
  split; vm_compute; reflexivity.
Qed.

(** C2: when [options.useAverage] is absent or [false], a successful
    construction sets [useAverage] to true, and in every state reached from
    there an iteration of the loop returns and calls the action callback
    exactly when calibration is inactive and the sum of the buffer is
    greater than [targetFps * fpsBufferLength]; the sample alone decides
    nothing. *)
Theorem useAverage_coerced_to_true (options : Options) (now : num)
    (w0 : World)
    (Hfalsy : opt_useAverage options = None \/
              opt_useAverage options = Some false)
    (Hnew : Raft options now = Ok w0) :
  useAverage (cfg w0) = true /\
  forall os w time,
    run os w0 = Ok w ->
    useAverage (cfg w) = true /\
    exists w',
      loop time w = Ok w' /\
      invoked Action (new_calls w w') =
      negb (updatingTargetFps (obj w)) &&
      Num.gt (total (fpsBuffer (obj w')))
        (Num.mul (targetFps (obj w))
           (of_nat (Pos.to_nat (fpsBufferLength (cfg w))))).
Proof.
  pose proof (Raft_wf _ _ _ Hnew) as Hw0.
  split; [apply Hw0|].
  intros os w time Hrun.
  pose proof (run_wf _ _ _ Hw0 Hrun) as Hw.
  split; [apply Hw|].
  destruct (loop_returns time w (wf_calibrating _ Hw)) as [w' Hl].
  exists w'. split; [assumption|].
  rewrite (step_calls _ _ _ Hw Hl).
  destruct (negb _ && Num.gt _ _), (hasInaction (cfg w)),
    (hasAlways (cfg w)); reflexivity.
Qed.

Lemma instantaneous_raft_new :
  Raft instantaneous_options zero = Ok instantaneous_raft.
Proof. vm_compute; reflexivity. Qed.

Lemma useAverage_coerced_to_true_witness :
  Raft instantaneous_options zero = Ok instantaneous_raft /\
  useAverage (cfg instantaneous_raft) = true.
Proof.
  split; [exact instantaneous_raft_new|].
  exact (proj1 (useAverage_coerced_to_true instantaneous_options zero
                  instantaneous_raft (or_intror eq_refl)
                  instantaneous_raft_new)).
Defined.

(** C8, evaluated on the code: constructed with [useAverage: false] and
    [targetFps: 30], started by one call of [loop()] and then driven by the
    host, after two samples of [100] the iteration whose sample is [25]
    calls the action callback and not the inaction callback, because the
    buffer sum [225] exceeds [30 * 3]. *)
Lemma useAverage_false_sample_25_calls_action :
  Raft instantaneous_options zero = Ok instantaneous_raft /\
  exists w w',
    run [OpLoop (of_Z 10); OpTimeout 1; OpFrame 1 (of_Z 20); OpTimeout 2]
      instantaneous_raft = Ok w /\
    measure (of_Z 60) (lastTime (obj w)) = of_Z 25 /\
    Num.gt (of_Z 25) (targetFps (obj w)) = false /\
    run_op (OpFrame 2 (of_Z 60)) w = Ok w' /\
    frames_ (obj w') = 3%Z /\
    new_calls w w' = [Call Action 3 (of_Z 25) (of_Z 75) (of_Z 100)] /\
    invoked Action (new_calls w w') = true /\
    invoked Inaction (new_calls w w') = false.
Proof.
  split; [exact instantaneous_raft_new|].
  eexists. eexists. split; [vm_compute; reflexivity|].
  repeat (split; [vm_compute; reflexivity|]). vm_compute; reflexivity.
Qed.

(** On the first iteration after that construction the buffer holds the
    one sample, and a sample of [25] does call the inaction callback. *)
Example useAverage_false_first_sample_25 :
  exists w',
    loop (of_Z 40) instantaneous_raft = Ok w' /\
    new_calls instantaneous_raft w' =
    [Call Inaction 1 (of_Z 25) (of_Z 8) (of_Z 25)].
Proof. eexists. split; vm_compute; reflexivity. Qed.

(** ** Calibration *)

Lemma console_clearTimeout (handle : option nat) (h : Host) :
  console (clearTimeout handle h) = console h.
Proof. by destruct handle. Qed.

Lemma console_cancelAnimationFrame (handle : option nat) (h : Host) :
  console (cancelAnimationFrame handle h) = console h.
Proof. by destruct handle. Qed.

Section Calibrating.

Variables (time : num) (w : World) (buffer : list num).
Hypothesis Hcal : updatingTargetFps (obj w) = true.
Hypothesis Hbuf : calibrateTargetBuffer_ (obj w) = Some buffer.

(** A calibrating iteration that leaves the counter at [1] or more. *)
Lemma loop_calibrating_continues :
  Num.lt (Num.sub (to_number (frameCount (obj w))) one) one = false ->
  exists w',
    loop time w = Ok w' /\
    updatingTargetFps (obj w') = true /\
    calibrateTargetBuffer_ (obj w') =
    Some (buffer ++ [measure time (lastTime (obj w))]) /\
    frameCount (obj w') =
    Some (Num.sub (to_number (frameCount (obj w))) one) /\
    lastTime (obj w') = time /\
    targetFps (obj w') = targetFps (obj w).
Proof.
  intros Hlt. unfold loop, cancel, with_host.
  destruct (existsb _ _); cbn [obj updatingTargetFps]; rewrite Hcal;
    unfold updateCalibrationBuffer_; cbn [obj calibrateTargetBuffer_ bind];
    rewrite Hbuf; cbn [frameCount]; rewrite Hlt;
    cbn [bind setTimeout host cfg obj]; (eexists; split; [reflexivity|]);
    cbn; rewrite ?Hcal; done.
Qed.

(** The calibrating iteration that brings the counter below [1]. *)
Lemma loop_calibrating_completes :
  Num.lt (Num.sub (to_number (frameCount (obj w))) one) one = true ->
  exists w',
    loop time w = Ok w' /\
    updatingTargetFps (obj w') = false /\
    calibrateTargetBuffer_ (obj w') =
    Some (buffer ++ [measure time (lastTime (obj w))]) /\
    frameCount (obj w') =
    Some (Num.sub (to_number (frameCount (obj w))) one) /\
    targetFps (obj w') =
    Num.add
      (Num.div (total (buffer ++ [measure time (lastTime (obj w))]))
         (of_nat (length (buffer ++ [measure time (lastTime (obj w))]))))
      (Fin (1 # 2)) /\
    console (host w') = console (host w) ++ [targetFps (obj w')].
Proof.
  intros Hlt. unfold loop, cancel, with_host.
  destruct (existsb _ _); cbn [obj updatingTargetFps]; rewrite Hcal;
    unfold updateCalibrationBuffer_; cbn [obj calibrateTargetBuffer_ bind];
    rewrite Hbuf; cbn [frameCount]; rewrite Hlt;
    cbn [bind setTimeout host cfg obj]; (eexists; split; [reflexivity|]);
    cbn [obj host updatingTargetFps calibrateTargetBuffer_ frameCount
           targetFps set_timeout console console_log fst];
    rewrite ?console_cancelAnimationFrame, ?console_clearTimeout;
    by rewrite sum_upto_total.
Qed.

End Calibrating.

(** C4: a calibrating iteration that brings the remaining-frames counter
    to zero returns with calibration inactive and with [targetFps] the sum
    of the collected samples divided by their number, plus [0.5], each of
    the three operations giving the double the code computes. In
    particular, from any state, [calibrateTargetFps(2)] followed by two
    iterations whose samples are [10] and [20] leaves [targetFps] at [15.5]
    and calibration inactive. *)
Theorem calibration_sets_targetFps :
  (forall (w : World) (time : num) (buffer : list num) (count : num),
     updatingTargetFps (obj w) = true ->
     calibrateTargetBuffer_ (obj w) = Some buffer ->
     frameCount (obj w) = Some count ->
     Num.sub count one = zero ->
     exists w',
       loop time w = Ok w' /\
       let samples := buffer ++ [measure time (lastTime (obj w))] in
       frameCount (obj w') = Some zero /\
       calibrateTargetBuffer_ (obj w') = Some samples /\
       targetFps (obj w') =
       Num.add (Num.div (total samples) (of_nat (length samples)))
         (Fin (1 # 2)) /\
       updatingTargetFps (obj w') = false) /\
  (forall (w : World) (t1 t2 : num),
     measure t1 (lastTime (obj w)) = of_Z 10 ->
     measure t2 t1 = of_Z 20 ->
     exists w',
       run [OpCalibrate (Some (of_Z 2)); OpLoop t1; OpLoop t2] w = Ok w' /\
       calibrateTargetBuffer_ (obj w') = Some [of_Z 10; of_Z 20] /\
       targetFps (obj w') = Fin (31 # 2) /\
       updatingTargetFps (obj w') = false).
Proof.
  split.
  - intros w time buffer count Hcal Hbuf Hcount Hzero.
    destruct (loop_calibrating_completes time w buffer Hcal Hbuf)
      as (w' & Hl & Hidle & Hsamples & Hc & Htarget & _).
    { rewrite Hcount. cbn [to_number]. rewrite Hzero. by vm_compute. }
    exists w'. split; [assumption|]. cbv zeta.
    rewrite Hc, Hcount. cbn [to_number]. rewrite Hzero. done.
  - intros w t1 t2 H1 H2.
    set (w1 := calibrateTargetFps (Some (of_Z 2)) w).
    assert (Hcal1 : updatingTargetFps (obj w1) = true)
      by (unfold w1, calibrateTargetFps;
          by destruct (calibrationPeriod (cfg w))).
    assert (Hbuf1 : calibrateTargetBuffer_ (obj w1) = Some [])
      by (unfold w1, calibrateTargetFps;
          by destruct (calibrationPeriod (cfg w))).
    assert (Hcount1 : frameCount (obj w1) = Some (of_Z 2))
      by (unfold w1, calibrateTargetFps;
          by destruct (calibrationPeriod (cfg w))).
    assert (Hlast1 : lastTime (obj w1) = lastTime (obj w))
      by apply calibrateTargetFps_untouched.
    destruct (loop_calibrating_continues t1 w1 [] Hcal1 Hbuf1)
      as (w2 & Hl2 & Hcal2 & Hbuf2 & Hcount2 & Hlast2 & _).
    { rewrite Hcount1. by vm_compute. }
    rewrite Hlast1, H1, Hcount1 in *.
    destruct (loop_calibrating_completes t2 w2 _ Hcal2 Hbuf2)
      as (w3 & Hl3 & Hidle3 & Hbuf3 & _ & Htarget3 & _).
    { rewrite Hcount2. by vm_compute. }
    rewrite Hlast2, H2 in *.
    exists w3. cbn [run run_op bind]. fold w1. rewrite Hl2. cbn [bind].
    rewrite Hl3. cbn [bind]. split; [done|]. split; [done|].
    split; [|done]. rewrite Htarget3. vm_compute; reflexivity.
Qed.

Lemma calibration_sets_targetFps_witness :
  measure (of_Z 100) (lastTime (obj default_raft)) = of_Z 10 /\
  measure (of_Z 150) (of_Z 100) = of_Z 20 /\
  exists w',
    run [OpCalibrate (Some (of_Z 2)); OpLoop (of_Z 100); OpLoop (of_Z 150)]
      default_raft = Ok w' /\
    calibrateTargetBuffer_ (obj w') = Some [of_Z 10; of_Z 20] /\
    targetFps (obj w') = Fin (31 # 2) /\
    updatingTargetFps (obj w') = false.
Proof.
  assert (H1 : measure (of_Z 100) (lastTime (obj default_raft)) = of_Z 10)
    by (vm_compute; reflexivity).
  assert (H2 : measure (of_Z 150) (of_Z 100) = of_Z 20)
    by (vm_compute; reflexivity).
  split; [exact H1|]. split; [exact H2|].
  exact (proj2 calibration_sets_targetFps default_raft (of_Z 100) (of_Z 150)
           H1 H2).
Defined.

(** The stored target is the rounded one: after the samples [10], [20] and
    [10] it is the double [13.833333333333334]. *)
Example calibration_target_is_rounded :
  exists w',
    run [OpCalibrate (Some (of_Z 3)); OpLoop (of_Z 100); OpLoop (of_Z 150);
         OpLoop (of_Z 250)] default_raft = Ok w' /\
    calibrateTargetBuffer_ (obj w') = Some [of_Z 10; of_Z 20; of_Z 10] /\
    targetFps (obj w') = S754_finite false 7787474355661483 (-49) /\
    targetFps (obj w') = Fin (13833333333333334 # 1000000000000000).
Proof.
  eexists. split; [vm_compute; reflexivity|].
  split; [vm_compute; reflexivity|]. split; vm_compute; reflexivity.
Qed.

(** ** Cancelling *)

Section Cancelling.

Implicit Types (w : World) (h : Host).

Lemma no_pending_single_chain w : no_pending_step w -> single_chain w.
Proof.
  intros [Ht Hf]. repeat split.
  - intros t Hin Htask. by destruct (Ht t Hin).
  - intros f Hin. by destruct (Hf f).
  - intros t f _ _. apply Hf.
Qed.

Lemma cancel_twice w : cancel (cancel w) = cancel w.
Proof.
  unfold cancel, with_host, cancelAnimationFrame, clearTimeout.
  cbn [obj cfg host].
  destruct (request (obj w)), (timeout (obj w)); cbn;
    rewrite ?list_filter_filter_l by done; reflexivity.
Qed.

Lemma cancel_nothing_to_clear w :
  timeout (obj w) = None -> request (obj w) = None -> cancel w = w.
Proof.
  intros Ht Hr. unfold cancel. rewrite Ht, Hr. by destruct w.
Qed.

Lemma cancel_timers w t :
  t ∈ timers (host (cancel w)) ->
  t ∈ timers (host w) /\ timeout (obj w) <> Some (timer_id t).
Proof.
  unfold cancel, with_host, cancelAnimationFrame, clearTimeout.
  cbn [host].
  destruct (request (obj w)), (timeout (obj w)); cbn [timers];
    rewrite ?list_elem_of_filter; intros H; split;
    try (destruct H; assumption); try assumption; try discriminate;
    destruct H; congruence.
Qed.

Lemma cancel_frames w f :
  f ∈ frames (host (cancel w)) ->
  f ∈ frames (host w) /\ request (obj w) <> Some f.
Proof.
  unfold cancel, with_host, cancelAnimationFrame, clearTimeout.
  cbn [host].
  destruct (request (obj w)), (timeout (obj w)); cbn [frames];
    rewrite ?list_elem_of_filter; intros H; split;
    try (destruct H; assumption); try assumption; try discriminate;
    destruct H; congruence.
Qed.

(** After [cancel], on a single chain, nothing is left to run. *)
Lemma cancel_no_pending_step w :
  single_chain w -> no_pending_step (cancel w).
Proof.
  intros (Ha & Hb & _). split.
  - intros t Hin Htask. apply cancel_timers in Hin as [Hin Hne].
    apply Hne. by apply Ha.
  - intros f Hin. apply cancel_frames in Hin as [Hin Hne].
    apply Hne. by apply Hb.
Qed.

Lemma find_timer id h t :
  List.find (fun t => Nat.eqb (timer_id t) id) (timers h) = Some t ->
  t ∈ timers h /\ timer_id t = id.
Proof.
  intros H. apply find_some in H as [Hin Hid].
  split; [by apply list_elem_of_In | by apply Nat.eqb_eq].
Qed.

Lemma pending_frame id h :
  existsb (Nat.eqb id) (frames h) = true -> id ∈ frames h.
Proof.
  intros H. apply existsb_exists in H as (f & Hin & Heq).
  apply Nat.eqb_eq in Heq as ->. by apply list_elem_of_In.
Qed.

Lemma calibrateTargetFps_timers frameCount w t :
  t ∈ timers (host (calibrateTargetFps frameCount w)) ->
  t ∈ timers (host w) \/ timer_task t = TCalibrate.
Proof.
  unfold calibrateTargetFps.
  destruct (calibrationPeriod (cfg w)); cbn; [|by left].
  rewrite elem_of_app, list_elem_of_singleton.
  intros [H| ->]; [by left | by right].
Qed.

Lemma calibrateTargetFps_handles frameCount w :
  frames (host (calibrateTargetFps frameCount w)) = frames (host w) /\
  timeout (obj (calibrateTargetFps frameCount w)) = timeout (obj w) /\
  request (obj (calibrateTargetFps frameCount w)) = request (obj w).
Proof.
  unfold calibrateTargetFps. by destruct (calibrationPeriod (cfg w)).
Qed.

(** What an iteration does to the host and to the two handles. *)
(** What an iteration does to the host and to the two handles: the next
    step is scheduled after the callbacks have run, whether or not one of
    them has called [cancel()]. *)
Lemma loop_schedules time w w' :
  loop time w = Ok w' ->
  exists w0,
    (w0 = w \/ w0 = cancel w) /\
    timers (host w') =
    timers (host w0)
    ++ [Timer (next_timer (host w)) TRequestFrame (loopTimeout (cfg w))] /\
    frames (host w') = frames (host w0) /\
    next_timer (host w') = S (next_timer (host w)) /\
    next_frame (host w') = next_frame (host w) /\
    timeout (obj w') = Some (next_timer (host w)) /\
    request (obj w') = request (obj w).
Proof.
  unfold loop.
  destruct (existsb _ _);
    [ exists (cancel w); split; [by right|]
    | exists w; split; [by left|] ];
    revert H; unfold cancel, with_host; cbn [obj updatingTargetFps];
    (destruct (updatingTargetFps (obj w));
     [ unfold updateCalibrationBuffer_;
       cbn [obj calibrateTargetBuffer_ bind];
       destruct (calibrateTargetBuffer_ (obj w)); [|discriminate];
       cbn [frameCount];
       destruct (Num.lt _ one)
     | ]);
    cbn [bind setTimeout host cfg obj]; intros [= <-]; cbn;
    destruct (request (obj w)), (timeout (obj w)); done.
Qed.

Lemma loop_single_chain time w w' :
  no_pending_step w -> loop time w = Ok w' -> single_chain w'.
Proof.
  intros [Ht Hf] Hl.
  apply loop_schedules in Hl
    as (w0 & H0 & Htimers & Hframes & _ & _ & Htimeout & _).
  assert (Ht0 : forall t, t ∈ timers (host w0) ->
                          timer_task t <> TRequestFrame).
  { destruct H0 as [-> | ->]; [done|].
    intros t Hin. apply cancel_timers in Hin as [Hin _]. by apply Ht. }
  assert (Hf0 : forall f, f ∉ frames (host w0)).
  { destruct H0 as [-> | ->]; [done|].
    intros f Hin. apply cancel_frames in Hin as [Hin _]. by apply (Hf f). }
  unfold single_chain. rewrite Htimers, Hframes, Htimeout.
  repeat split.
  - intros t Hin Htask. apply elem_of_app in Hin as [Hin|Hin].
    + by destruct (Ht0 t Hin).
    + by apply list_elem_of_singleton in Hin as ->.
  - intros f Hin. by destruct (Hf0 f).
  - intros t f _ _. apply Hf0.
Qed.

Lemma fire_frame_single_chain id time w w' :
  single_chain w -> fire_frame id time w = Ok w' -> single_chain w'.
Proof.
  intros (Ha & Hb & Hc). unfold fire_frame.
  destruct (existsb _ _) eqn:Hpending; [|by intros [= <-]].
  apply pending_frame in Hpending.
  apply loop_single_chain. split; cbn.
  - intros t Hin Htask. by destruct (Hc t id Hin Htask).
  - intros f Hin. apply list_elem_of_filter in Hin as [Hne Hin].
    apply Hb in Hin. apply Hb in Hpending. congruence.
Qed.

Lemma fire_timeout_single_chain id w :
  single_chain w -> single_chain (fire_timeout id w).
Proof.
  intros (Ha & Hb & Hc). unfold fire_timeout.
  destruct (List.find _ _) as [t|] eqn:Hfind; [|done].
  apply find_timer in Hfind as [Hin Hid].
  destruct (timer_task t) eqn:Htask.
  - cbn. repeat split; cbn.
    + intros t' Hin' Htask'.
      apply list_elem_of_filter in Hin' as [_ Hin']. by apply Ha.
    + intros f Hf. apply elem_of_app in Hf as [Hf|Hf].
      * by destruct (Hc t f Hin Htask).
      * by apply list_elem_of_singleton in Hf as ->.
    + intros t' f Hin' Htask' _.
      apply list_elem_of_filter in Hin' as [Hne Hin'].
      apply Ha in Hin'; [|assumption]. apply Ha in Hin; [|assumption].
      congruence.
  - set (w1 := with_host (drop_timer id (host w)) w).
    destruct (calibrateTargetFps_handles None w1) as (Hf & Ht & Hr).
    unfold single_chain. rewrite Hf, Ht, Hr.
    assert (Hsub : forall t', t' ∈ timers (host (calibrateTargetFps None w1))
                              -> timer_task t' = TRequestFrame ->
                              t' ∈ timers (host w)).
    { intros t' Hin' Htask'.
      apply calibrateTargetFps_timers in Hin' as [Hin'|Hin']; [|congruence].
      by apply list_elem_of_filter in Hin' as [_ Hin']. }
    repeat split.
    + intros t' Hin' Htask'. apply Ha; [by apply Hsub | assumption].
    + apply Hb.
    + intros t' f Hin' Htask'. apply (Hc t'); [by apply Hsub | assumption].
Qed.

Lemma calibrateTargetFps_single_chain frameCount w :
  single_chain w -> single_chain (calibrateTargetFps frameCount w).
Proof.
  intros (Ha & Hb & Hc).
  destruct (calibrateTargetFps_handles frameCount w) as (Hf & Ht & Hr).
  unfold single_chain. rewrite Hf, Ht, Hr.
  assert (Hsub : forall t,
             t ∈ timers (host (calibrateTargetFps frameCount w)) ->
             timer_task t = TRequestFrame -> t ∈ timers (host w)).
  { intros t Hin Htask.
    by apply calibrateTargetFps_timers in Hin as [Hin|Hin]; [|congruence]. }
  repeat split.
  - intros t Hin Htask. apply Ha; [by apply Hsub | assumption].
  - apply Hb.
  - intros t f Hin Htask. apply (Hc t); [by apply Hsub | assumption].
Qed.

Lemma updateCalibrationBuffer_single_chain fps w w' :
  single_chain w -> updateCalibrationBuffer_ fps w = Ok w' ->
  single_chain w'.
Proof.
  intros Hw. unfold updateCalibrationBuffer_.
  destruct (calibrateTargetBuffer_ (obj w)); [|discriminate].
  destruct (Num.lt _ _); by intros [= <-].
Qed.

Lemma Raft_no_pending_step options now w :
  Raft options now = Ok w ->
  no_pending_step w /\ timeout (obj w) = None /\ request (obj w) = None.
Proof.
  intros H. apply Raft_returns in H as (n & _ & _ & _ & ->).
  split; [|by split]. split; cbn.
  - intros t Hin. by apply elem_of_nil in Hin.
  - intros f. apply not_elem_of_nil.
Qed.

(** A loop that is started by one call of [loop()], and restarted only
    when nothing is scheduled, stays a single chain. *)
Lemma run_op_single_chain o w w' :
  single_chain w -> keeps_chain o w -> run_op o w = Ok w' ->
  single_chain w'.
Proof.
  intros Hw Hk. destruct o; cbn in *.
  - by apply loop_single_chain.
  - intros [= <-]. by apply no_pending_single_chain, cancel_no_pending_step.
  - intros [= <-]. by apply calibrateTargetFps_single_chain.
  - by apply updateCalibrationBuffer_single_chain.
  - intros [= <-]. by apply fire_timeout_single_chain.
  - by apply fire_frame_single_chain.
Qed.

(** With nothing pending, a host event runs no iteration. *)
Lemma host_event_idle o w :
  no_pending_step w -> host_event o = true ->
  exists w',
    run_op o w = Ok w' /\ no_pending_step w' /\
    frames_ (obj w') = frames_ (obj w) /\
    calls (host w') = calls (host w).
Proof.
  intros [Ht Hf] Ho. destruct o; try discriminate; cbn.
  - eexists. split; [reflexivity|].
    split; [|split; apply fire_timeout_untouched].
    unfold fire_timeout.
    destruct (List.find _ _) as [t|] eqn:Hfind; [|by split].
    apply find_timer in Hfind as [Hin _].
    destruct (timer_task t) eqn:Htask; [by destruct (Ht t Hin)|].
    set (w1 := with_host (drop_timer id (host w)) w).
    destruct (calibrateTargetFps_handles None w1) as (Hfr & _ & _).
    split.
    + intros t' Hin'.
      apply calibrateTargetFps_timers in Hin' as [Hin'|Hin'];
        [|congruence].
      apply list_elem_of_filter in Hin' as [_ Hin']. by apply Ht.
    + rewrite Hfr. apply Hf.
  - unfold fire_frame.
    destruct (existsb _ _) eqn:Hpending.
    + apply pending_frame in Hpending. by destruct (Hf id).
    + exists w. split; [done|]. split; [by split|]. by split.
Qed.

Lemma host_events_idle os w :
  no_pending_step w -> Forall (fun o => host_event o = true) os ->
  exists w',
    run os w = Ok w' /\ no_pending_step w' /\
    frames_ (obj w') = frames_ (obj w) /\
    calls (host w') = calls (host w).
Proof.
  intros Hw Hos. revert w Hw.
  induction Hos as [|o os Ho _ IH]; intros w Hw.
  - exists w. split; [done|]. split; [done|]. by split.
  - destruct (host_event_idle o w Hw Ho) as (w1 & H1 & Hw1 & Hf1 & Hc1).
    destruct (IH w1 Hw1) as (w' & Hr & Hw' & Hf & Hc).
    exists w'. cbn. rewrite H1. cbn. rewrite Hr.
    split; [done|]. split; [done|]. split; congruence.
Qed.

End Cancelling.

Lemma run_single_chain (os : list op) (w w' : World) :
  single_chain w -> keeps_chain_run os w -> run os w = Ok w' ->
  single_chain w'.
Proof.
  revert w. induction os as [|o os IH]; intros w Hw; cbn.
  - by intros _ [= <-].
  - intros [Hk Hrest]. destruct (run_op o w) as [w1|] eqn:H1; [|discriminate].
    cbn. apply IH; [|assumption]. by apply run_op_single_chain with o w.
Qed.

Lemma started_raft_loop : loop (of_Z 100) default_raft = Ok started_raft.
Proof. vm_compute. reflexivity. Qed.

Lemma started_raft_single_chain : single_chain started_raft.
Proof.
  apply (loop_single_chain (of_Z 100) default_raft); [|exact started_raft_loop].
  apply (Raft_no_pending_step _ _ _ default_raft_new).
Qed.

(** C9, as stated, fails: after [loop()] has been called a second time
    while an iteration was scheduled, two chains are running and the
    instance remembers the handle of the second only; two calls of [cancel]
    in a row leave the timer of the first chain pending, and when the host
    runs it and the frame it requests, a third iteration runs. *)
Lemma cancel_twice_leaves_second_chain :
  Raft default_options zero = Ok default_raft /\
  exists w w',
    run [OpLoop (of_Z 100); OpLoop (of_Z 200); OpCancel; OpCancel]
      default_raft = Ok w /\
    frames_ (obj w) = 2%Z /\
    timers (host w) = [Timer 1 TRequestFrame zero] /\
    run [OpTimeout 1; OpFrame 1 (of_Z 300)] w = Ok w' /\
    frames_ (obj w') = 3%Z.
Proof.
  split; [exact default_raft_new|].
  eexists. eexists. split; [vm_compute; reflexivity|].
  split; [vm_compute; reflexivity|]. split; [vm_compute; reflexivity|].
  split; vm_compute; reflexivity.
Qed.

(** Nor does a [cancel()] called from inside a callback stop the loop: the
    always callback of [cancelling_options] calls [cancel()] at every call,
    and the iterations go on, each scheduling the next after the callback
    has returned. *)
Example cancel_from_a_callback_does_not_stop_the_loop :
  Raft cancelling_options zero = Ok cancelling_raft /\
  exists w1 w2,
    loop (of_Z 100) cancelling_raft = Ok w1 /\
    new_calls cancelling_raft w1 = [Call Always 1 (of_Z 10) (of_Z 3) (of_Z 10)] /\
    existsb (cancels (cfg cancelling_raft)) (new_calls cancelling_raft w1) =
    true /\
    timers (host w1) = [Timer 1 TRequestFrame zero] /\
    run [OpTimeout 1; OpFrame 1 (of_Z 200)] w1 = Ok w2 /\
    frames_ (obj w2) = 2%Z /\
    existsb (cancels (cfg cancelling_raft)) (new_calls w1 w2) = true /\
    timers (host w2) = [Timer 2 TRequestFrame zero].
Proof.
  split; [vm_compute; reflexivity|].
  eexists. eexists. split; [vm_compute; reflexivity|].
  split; [vm_compute; reflexivity|]. split; [vm_compute; reflexivity|].
  split; [vm_compute; reflexivity|]. split; [vm_compute; reflexivity|].
  split; [vm_compute; reflexivity|]. split; vm_compute; reflexivity.
Qed.

(** C9, amended: [cancel] never throws and changes no field of the
    instance. Calling it twice in a row gives the state one call gives.
    Called when [this.timeout] and [this.request] are still undefined
    (before any iteration) it changes nothing at all. Called between two
    iterations on an instance whose loop is a single chain ([loop()] called
    once, and again only when nothing was scheduled), it leaves nothing
    pending that would run an iteration, and whatever timers and frames the
    host runs afterwards, no iteration runs: the frame count and the call
    log stay as they were. Called from inside a callback it does not stop
    the loop: an iteration that returns has scheduled the next step, under
    the handle it leaves in [this.timeout], whatever its callbacks did. *)
Theorem cancel_idempotent (w : World) :
  run [OpCancel] w = Ok (cancel w) /\
  run [OpCancel; OpCancel] w = run [OpCancel] w /\
  cfg (cancel w) = cfg w /\
  obj (cancel w) = obj w /\
  (timeout (obj w) = None -> request (obj w) = None -> cancel w = w) /\
  (single_chain w ->
   no_pending_step (cancel w) /\
   forall evs, Forall (fun o => host_event o = true) evs ->
     exists w',
       run evs (cancel w) = Ok w' /\
       no_pending_step w' /\
       frames_ (obj w') = frames_ (obj w) /\
       calls (host w') = calls (host w)) /\
  (forall time w',
     loop time w = Ok w' ->
     exists id,
       timeout (obj w') = Some id /\
       Timer id TRequestFrame (loopTimeout (cfg w)) ∈ timers (host w')).
Proof.
  split; [reflexivity|]. split; [cbn; by rewrite cancel_twice|].
  split; [reflexivity|]. split; [reflexivity|].
  split; [apply cancel_nothing_to_clear|]. split.
  - intros H.
    pose proof (cancel_no_pending_step w H) as Hidle.
    split; [assumption|].
    intros evs Hevs.
    destruct (host_events_idle evs (cancel w) Hidle Hevs)
      as (w' & Hr & Hw' & Hf & Hc).
    exists w'. split; [assumption|]. split; [assumption|].
    split; [assumption|].
    rewrite Hc. apply cancel_untouched.
  - intros time w' Hl.
    apply loop_schedules in Hl as (w0 & _ & Htimers & _ & _ & _ & Ht & _).
    exists (next_timer (host w)). split; [assumption|].
    rewrite Htimers. apply elem_of_app. right. by apply list_elem_of_singleton.
Qed.

Lemma cancel_idempotent_witness :
  single_chain started_raft /\
  timers (host started_raft) = [Timer 1 TRequestFrame zero] /\
  run [OpCancel; OpCancel] started_raft = run [OpCancel] started_raft /\
  no_pending_step (cancel started_raft).
Proof.
  split; [exact started_raft_single_chain|]. split; [reflexivity|].
  pose proof (cancel_idempotent started_raft)
    as (_ & Htwice & _ & _ & _ & Hchain & _).
  exact (conj Htwice (proj1 (Hchain started_raft_single_chain))).
Defined.

(** Before the first iteration [cancel] changes nothing, and nothing is
    scheduled. *)
Lemma cancel_before_first_step (options : Options) (now : num) (w : World) :
  Raft options now = Ok w -> cancel w = w /\ no_pending_step w.
Proof.
  intros H. apply Raft_no_pending_step in H as (Hidle & Ht & Hr).
  split; [by apply cancel_nothing_to_clear | assumption].
Qed.

(** * Further properties *)

(** ** Fields and timers the methods never touch *)

Ltac open_loop :=
  unfold loop, cancel, with_host;
  destruct (existsb _ _) eqn:?;
  cbn [obj updatingTargetFps];
  (match goal with
   | |- context [updatingTargetFps (obj ?w)] =>
       destruct (updatingTargetFps (obj w)) eqn:?
   end;
   [ unfold updateCalibrationBuffer_; cbn [obj calibrateTargetBuffer_ bind];
     match goal with
     | |- context [calibrateTargetBuffer_ (obj ?w)] =>
         destruct (calibrateTargetBuffer_ (obj w)) eqn:?; [|discriminate]
     end;
     cbn [frameCount]; destruct (Num.lt _ one) eqn:?;
     cbn [bind setTimeout host cfg obj]; intros [= <-]
   | cbn [bind setTimeout host cfg obj]; intros [= <-] ]).

Lemma run_op_null_fields (o : op) (w w' : World) :
  run_op o w = Ok w' ->
  this_fps (obj w') = this_fps (obj w) /\
  timeout_ (obj w') = timeout_ (obj w) /\
  request_ (obj w') = request_ (obj w).
Proof.
  destruct o; cbn.
  - open_loop; by cbn.
  - by intros [= <-].
  - intros [= <-]. unfold calibrateTargetFps.
    by destruct (calibrationPeriod (cfg w)).
  - unfold updateCalibrationBuffer_.
    destruct (calibrateTargetBuffer_ (obj w)); [|discriminate].
    destruct (Num.lt _ _); by intros [= <-].
  - intros [= <-]. unfold fire_timeout.
    destruct (List.find _ _) as [t|]; [|done].
    destruct (timer_task t); [done|].
    unfold calibrateTargetFps. cbn [cfg with_host].
    by destruct (calibrationPeriod (cfg w)).
  - unfold fire_frame. destruct (existsb _ _); [|by intros [= <-]].
    open_loop; by cbn.
Qed.

(** X2: [this.fps], [this.timeout_] and [this.request_] are [null] in
    every state an instance can reach: the loop writes its sample to a
    global variable and its handles to [this.timeout] and [this.request],
    so reading [raft.fps] never gives a frame rate. *)
Theorem fps_field_stays_null (w : World) (H : reachable w) :
  this_fps (obj w) = None /\
  timeout_ (obj w) = None /\
  request_ (obj w) = None.
Proof.
  induction H as [options now w Hnew | o w w' _ IH Ho].
  - by apply Raft_returns in Hnew as (n & _ & _ & _ & ->).
  - apply run_op_null_fields in Ho as (-> & -> & ->). exact IH.
Qed.

Lemma fps_field_stays_null_witness :
  reachable started_raft /\ this_fps (obj started_raft) = None.
Proof.
  assert (Hr : reachable started_raft)
    by exact (reach_op (OpLoop (of_Z 100)) _ _ default_raft_reachable
                started_raft_loop).
  split; [exact Hr|].
  exact (proj1 (fps_field_stays_null started_raft Hr)).
Defined.

Lemma loop_timers_all (P : timer -> Prop) (time : num) (w w' : World) :
  (forall id delay, P (Timer id TRequestFrame delay)) ->
  Forall P (timers (host w)) -> loop time w = Ok w' ->
  Forall P (timers (host w')).
Proof.
  intros HP Hall Hl.
  apply loop_schedules in Hl as (w0 & H0 & -> & _).
  apply Forall_app. split; [|by constructor].
  destruct H0 as [-> | ->]; [assumption|].
  apply Forall_forall. intros t Hin.
  apply cancel_timers in Hin as [Hin _].
  by apply (proj1 (Forall_forall _ _) Hall).
Qed.

Lemma run_op_request_timers (o : op) (w w' : World) :
  calibrationPeriod (cfg w) = None ->
  Forall (fun t => timer_task t = TRequestFrame) (timers (host w)) ->
  run_op o w = Ok w' ->
  Forall (fun t => timer_task t = TRequestFrame) (timers (host w')).
Proof.
  intros Hp Hall. destruct o; cbn.
  - by apply loop_timers_all.
  - intros [= <-]. apply Forall_forall. intros t Hin.
    apply cancel_timers in Hin as [Hin _].
    by apply (proj1 (Forall_forall _ _) Hall).
  - intros [= <-]. unfold calibrateTargetFps. by rewrite Hp.
  - unfold updateCalibrationBuffer_.
    destruct (calibrateTargetBuffer_ (obj w)); [|discriminate].
    destruct (Num.lt _ _); by intros [= <-].
  - intros [= <-]. unfold fire_timeout.
    destruct (List.find _ _) as [t|] eqn:Hfind; [|done].
    apply find_timer in Hfind as [Hin _].
    rewrite (proj1 (Forall_forall _ _) Hall t Hin). cbn.
    apply Forall_forall. intros t' Hin'.
    apply list_elem_of_filter in Hin' as [_ Hin'].
    by apply (proj1 (Forall_forall _ _) Hall).
  - unfold fire_frame. destruct (existsb _ _); [|by intros [= <-]].
    by apply loop_timers_all.
Qed.

(** Every timer pending on an instance is one the loop set. *)
Lemma reachable_request_timers (w : World) :
  reachable w ->
  Forall (fun t => timer_task t = TRequestFrame) (timers (host w)).
Proof.
  induction 1 as [options now w Hnew | o w w' Hr IH Ho].
  - apply Raft_returns in Hnew as (n & _ & _ & _ & ->). constructor.
  - pose proof (wf_period _ (reachable_wf w Hr)) as Hp.
    by apply (run_op_request_timers o w w' Hp IH).
Qed.

(** X3: no instance ever recalibrates by itself. In every state an
    instance can reach the calibration period is [null] (a construction
    with a period throws), every pending timer is one the loop set to
    request its next frame, and a call of [calibrateTargetFps] sets no
    timer. *)
Theorem no_automatic_calibration (w : World) (H : reachable w) :
  calibrationPeriod (cfg w) = None /\
  Forall (fun t => timer_task t = TRequestFrame) (timers (host w)) /\
  forall frameCount,
    host (calibrateTargetFps frameCount w) = host w.
Proof.
  pose proof (wf_period _ (reachable_wf w H)) as Hp.
  split; [assumption|]. split; [by apply reachable_request_timers|].
  intros frameCount. unfold calibrateTargetFps. by rewrite Hp.
Qed.

Lemma started_raft_reachable : reachable started_raft.
Proof.
  exact (reach_op (OpLoop (of_Z 100)) _ _ default_raft_reachable
           started_raft_loop).
Qed.

Lemma no_automatic_calibration_witness :
  reachable started_raft /\
  Forall (fun t => timer_task t = TRequestFrame)
    (timers (host started_raft)).
Proof.
  split; [exact started_raft_reachable|].
  exact (proj1 (proj2 (no_automatic_calibration started_raft
                         started_raft_reachable))).
Defined.

(** ** What throws and what does not *)

Lemma run_op_returns (o : op) (w : World) :
  wf w -> not_update o = true -> exists w', run_op o w = Ok w'.
Proof.
  intros Hw Ho. destruct o; try discriminate; cbn; try by eexists.
  - apply loop_returns, Hw.
  - unfold fire_frame. destruct (existsb _ _); [|by eexists].
    apply loop_returns. cbn. apply Hw.
Qed.

(** X4: once an instance is constructed, nothing throws except a direct
    call of [updateCalibrationBuffer_]: from every state an instance can
    reach, every sequence of [loop], [cancel] and [calibrateTargetFps]
    calls and of timers and frames run by the host returns, whatever the
    clock reads. *)
Theorem methods_never_throw (w : World) (os : list op)
    (H : reachable w) (Hos : Forall (fun o => not_update o = true) os) :
  exists w', run os w = Ok w'.
Proof.
  pose proof (reachable_wf w H) as Hw. clear H. revert w Hw.
  induction Hos as [|o os Ho _ IH]; intros w Hw; cbn.
  - by exists w.
  - destruct (run_op_returns o w Hw Ho) as [w1 H1]. rewrite H1. cbn.
    apply IH. by apply run_op_wf in H1.
Qed.

Lemma methods_never_throw_witness :
  reachable default_raft /\
  exists w',
    run [OpCalibrate None; OpLoop NaN; OpTimeout 1; OpFrame 1 PInf; OpCancel]
      default_raft = Ok w'.
Proof.
  split; [exact default_raft_reachable|].
  apply (methods_never_throw default_raft); [exact default_raft_reachable|].
  repeat constructor.
Defined.

Lemma run_op_uncalibrated (o : op) (w w' : World) :
  not_calibrate o = true ->
  calibrationPeriod (cfg w) = None ->
  Forall (fun t => timer_task t = TRequestFrame) (timers (host w)) ->
  calibrateTargetBuffer_ (obj w) = None ->
  updatingTargetFps (obj w) = false ->
  run_op o w = Ok w' ->
  calibrateTargetBuffer_ (obj w') = None /\
  updatingTargetFps (obj w') = false /\
  targetFps (obj w') = targetFps (obj w) /\
  console (host w') = console (host w).
Proof.
  intros Ho Hp Hall Hbuf Hidle. destruct o; try discriminate; cbn.
  - unfold loop, cancel, with_host.
    destruct (existsb _ _); cbn [obj updatingTargetFps]; rewrite Hidle;
      cbn [bind setTimeout host cfg obj]; intros [= <-]; cbn;
      rewrite ?console_cancelAnimationFrame, ?console_clearTimeout,
        ?Hbuf, ?Hidle; done.
  - intros [= <-]. unfold cancel, cancelAnimationFrame, clearTimeout.
    by destruct (request (obj w)), (timeout (obj w)).
  - unfold updateCalibrationBuffer_. by rewrite Hbuf.
  - intros [= <-]. unfold fire_timeout.
    destruct (List.find _ _) as [t|] eqn:Hfind; [|done].
    apply find_timer in Hfind as [Hin _].
    by rewrite (proj1 (Forall_forall _ _) Hall t Hin).
  - unfold fire_frame. destruct (existsb _ _); [|by intros [= <-]].
    unfold loop, cancel, with_host.
    destruct (existsb _ _); cbn [obj updatingTargetFps]; rewrite Hidle;
      cbn [bind setTimeout host cfg obj]; intros [= <-]; cbn;
      rewrite ?console_cancelAnimationFrame, ?console_clearTimeout,
        ?Hbuf, ?Hidle; done.
Qed.

(** X5: as long as [calibrateTargetFps] has not been called, calibration
    stays inactive, the target FPS stays the one the constructor chose,
    nothing is printed, and a direct call of [updateCalibrationBuffer_]
    throws a [TypeError] (the calibration buffer is undefined). *)
Theorem uncalibrated_target_is_fixed (options : Options) (now : num)
    (w0 w : World) (os : list op)
    (Hnew : Raft options now = Ok w0)
    (Hos : Forall (fun o => not_calibrate o = true) os)
    (Hrun : run os w0 = Ok w) :
  updatingTargetFps (obj w) = false /\
  targetFps (obj w) = num_or (opt_targetFps options) (Fin (121 # 2)) /\
  console (host w) = [] /\
  forall fps, updateCalibrationBuffer_ fps w = Err TypeError.
Proof.
  assert (Hr0 : reachable w0) by exact (reach_new _ _ _ Hnew).
  assert (Hinit : calibrateTargetBuffer_ (obj w0) = None /\
                  updatingTargetFps (obj w0) = false /\
                  targetFps (obj w0) =
                  num_or (opt_targetFps options) (Fin (121 # 2)) /\
                  console (host w0) = [])
    by (by apply Raft_returns in Hnew as (n & _ & _ & _ & ->)).
  clear Hnew. revert w0 Hr0 Hinit Hrun.
  induction Hos as [|o os Ho _ IH];
    intros w0 Hr0 (Hbuf & Hidle & Htarget & Hlog); cbn.
  - intros [= <-]. repeat split; try assumption.
    intros fps. unfold updateCalibrationBuffer_. by rewrite Hbuf.
  - destruct (run_op o w0) as [w1|] eqn:H1; [|discriminate]. cbn.
    pose proof (wf_period _ (reachable_wf w0 Hr0)) as Hp.
    pose proof (reachable_request_timers w0 Hr0) as Hall.
    destruct (run_op_uncalibrated o w0 w1 Ho Hp Hall Hbuf Hidle H1)
      as (Hbuf1 & Hidle1 & Htarget1 & Hlog1).
    apply IH; [by apply reach_op with o w0|].
    repeat split; congruence.
Qed.

Lemma uncalibrated_target_is_fixed_witness :
  Raft default_options zero = Ok default_raft /\
  run [OpLoop (of_Z 100)] default_raft = Ok started_raft /\
  targetFps (obj started_raft) = Fin (121 # 2) /\
  updateCalibrationBuffer_ (of_Z 10) started_raft = Err TypeError.
Proof.
  split; [exact default_raft_new|]. split; [vm_compute; reflexivity|].
  destruct (uncalibrated_target_is_fixed default_options zero default_raft
              started_raft [OpLoop (of_Z 100)])
    as (_ & Htarget & _ & Hthrows);
    [exact default_raft_new | repeat constructor | vm_compute; reflexivity |].
  exact (conj Htarget (Hthrows (of_Z 10))).
Defined.

Lemma run_reachable (os : list op) (w w' : World) :
  reachable w -> run os w = Ok w' -> reachable w'.
Proof.
  revert w. induction os as [|o os IH]; intros w Hw; cbn.
  - by intros [= <-].
  - destruct (run_op o w) as [w1|] eqn:H1; [|discriminate]. cbn.
    apply IH. by apply reach_op with o w.
Qed.

(** ** The call log and the frame count *)

Lemma run_op_cases_log (o : op) (w w' : World) :
  run_op o w = Ok w' ->
  untouched w w' \/
  exists time h,
    stepped time (with_host h w) w' /\ calls h = calls (host w).
Proof.
  destruct o; cbn.
  - intros H. right. exists time, (host w).
    split; [|reflexivity]. apply loop_stepped. by destruct w.
  - intros [= <-]. left. apply cancel_untouched.
  - intros [= <-]. left. apply calibrateTargetFps_untouched.
  - intros H. left. by apply updateCalibrationBuffer_untouched in H.
  - intros [= <-]. left. apply fire_timeout_untouched.
  - unfold fire_frame. destruct (existsb _ _).
    + intros H. right. exists time, (drop_frame id (host w)).
      split; [by apply loop_stepped | reflexivity].
    + intros [= <-]. left. apply untouched_refl.
Qed.

Lemma calls_of_app (f : callback) (xs ys : list call) :
  calls_of f (xs ++ ys) = calls_of f xs ++ calls_of f ys.
Proof. apply List.filter_app. Qed.

(** The invariant of the call log. *)
Lemma call_log_invariant (w : World) :
  reachable w ->
  (0 <= frames_ (obj w))%Z /\
  Forall (fun c => (1 <= call_frame c <= frames_ (obj w))%Z)
    (calls (host w)) /\
  Z.of_nat (length (calls_of Always (calls (host w)))) =
  (if hasAlways (cfg w) then frames_ (obj w) else 0%Z) /\
  (Z.of_nat (length (calls_of Action (calls (host w)))) +
   Z.of_nat (length (calls_of Inaction (calls (host w)))) <=
   frames_ (obj w))%Z /\
  (hasInaction (cfg w) = true ->
   (Z.of_nat (length (calls_of Action (calls (host w)))) +
    Z.of_nat (length (calls_of Inaction (calls (host w)))) =
    frames_ (obj w))%Z) /\
  (hasInaction (cfg w) = false ->
   calls_of Inaction (calls (host w)) = []).
Proof.
  induction 1 as [options now w Hnew | o w w' _ IH Ho].
  - apply Raft_returns in Hnew as (n & _ & _ & _ & ->). cbn.
    repeat split; try done. by destruct (opt_always options).
  - destruct IH as (Hpos & Hframes & Halways & Hle & Heq & Hnone).
    apply run_op_cases_log in Ho as [Hu|(time & h & Hs & Hh)].
    + destruct Hu as [Hc Hf _ _ _ _ _ _ Hl]. rewrite Hc, Hf, Hl.
      by repeat split.
    + destruct Hs as [Hcfg Hfr _ _ _ _ _ _ Hcalls _].
      cbn [cfg obj host with_host] in *. cbv zeta in Hcalls.
      rewrite Hh in Hcalls. rewrite Hcfg, Hcalls, Hfr.
      rewrite !calls_of_app, !length_app, !Forall_app.
      assert (Hold : Forall (fun c => (1 <= call_frame c <=
                                         frames_ (obj w) + 1)%Z)
                       (calls (host w)))
        by (eapply Forall_impl; [exact Hframes|]; cbn; intros; lia).
      destruct (hasInaction (cfg w)) eqn:Hin.
      * specialize (Heq eq_refl). clear Hnone.
        destruct (step_decision _ _ _), (hasAlways (cfg w));
          cbn [calls_of List.filter is_fn call_fn app length] in *;
          (split; [lia|]);
          (split; [repeat split; try assumption; repeat constructor;
                   cbn; lia|]);
          repeat split; try lia; try discriminate.
      * specialize (Hnone eq_refl). clear Heq. rewrite Hnone in *.
        destruct (step_decision _ _ _), (hasAlways (cfg w));
          cbn [calls_of List.filter is_fn call_fn app length] in *;
          (split; [lia|]);
          (split; [repeat split; try assumption; repeat constructor;
                   cbn; lia|]);
          repeat split; try lia; try discriminate; try reflexivity.
Qed.

Lemma always_frames_invariant (w : World) :
  reachable w -> hasAlways (cfg w) = true ->
  map call_frame (calls_of Always (calls (host w))) =
  map Z.of_nat (seq 1 (Z.to_nat (frames_ (obj w)))).
Proof.
  induction 1 as [options now w Hnew | o w w' Hr IH Ho].
  - by apply Raft_returns in Hnew as (n & _ & _ & _ & ->).
  - destruct (call_log_invariant w Hr) as (Hpos & _).
    apply run_op_cases_log in Ho as [Hu|(time & h & Hs & Hh)].
    + destruct Hu as [Hc Hf _ _ _ _ _ _ Hl]. by rewrite Hc, Hf, Hl.
    + destruct Hs as [Hcfg Hfr _ _ _ _ _ _ Hcalls _].
      cbn [cfg obj host with_host] in *. cbv zeta in Hcalls.
      rewrite Hh in Hcalls. rewrite Hcfg, Hcalls, Hfr. intros Hal.
      rewrite Hal in Hcalls |- *.
      replace (Z.to_nat (frames_ (obj w) + 1))
        with (S (Z.to_nat (frames_ (obj w)))) by lia.
      rewrite seq_S, map_app, !calls_of_app, !map_app, IH by assumption.
      destruct (step_decision _ _ _), (hasInaction (cfg w)); cbn;
        do 2 f_equal; lia.
Qed.

Lemma calls_at_app (f : callback) (k : Z) (xs ys : list call) :
  calls_at f k (xs ++ ys) = calls_at f k xs ++ calls_at f k ys.
Proof. apply List.filter_app. Qed.

(** No call in the log carries the number of an iteration still to run. *)
Lemma calls_at_later (f : callback) (k n : Z) (cs : list call) :
  Forall (fun c => (1 <= call_frame c <= n)%Z) cs -> (n < k)%Z ->
  calls_at f k cs = [].
Proof.
  intros Hcs Hk. induction Hcs as [|c cs Hc _ IH]; [reflexivity|].
  unfold calls_at in *. cbn [List.filter].
  destruct (Z.eqb_spec (call_frame c) k); [lia|].
  by rewrite andb_false_r.
Qed.

(** What each iteration has called. *)
Lemma calls_at_invariant (w : World) :
  reachable w ->
  forall k, (1 <= k <= frames_ (obj w))%Z ->
    length (calls_at Always k (calls (host w))) =
    (if hasAlways (cfg w) then 1 else 0)%nat /\
    if hasInaction (cfg w)
    then (length (calls_at Action k (calls (host w))) +
          length (calls_at Inaction k (calls (host w))) = 1)%nat
    else calls_at Inaction k (calls (host w)) = [] /\
         (length (calls_at Action k (calls (host w))) <= 1)%nat.
Proof.
  induction 1 as [options now w Hnew | o w w' Hr IH Ho]; intros k Hk.
  - apply Raft_returns in Hnew as (n & _ & _ & _ & ->). cbn in Hk. lia.
  - destruct (call_log_invariant w Hr) as (Hpos & Hframes & _).
    apply run_op_cases_log in Ho as [Hu|(time & h & Hs & Hh)].
    + destruct Hu as [Hc Hf _ _ _ _ _ _ Hl]. rewrite Hc, Hl.
      rewrite Hf in Hk. by apply IH.
    + destruct Hs as [Hcfg Hfr _ _ _ _ _ _ Hcalls _].
      cbn [cfg obj host with_host] in *. cbv zeta in Hcalls.
      rewrite Hh in Hcalls. rewrite Hcfg, Hcalls. rewrite Hfr in Hk |- *.
      rewrite !calls_at_app, !length_app.
      destruct (Z.eq_dec k (frames_ (obj w) + 1)) as [->|Hne].
      * rewrite !(calls_at_later _ _ _ _ Hframes) by lia.
        destruct (step_decision _ _ _), (hasInaction (cfg w)),
          (hasAlways (cfg w));
          cbn [calls_at List.filter is_fn call_fn call_frame andb app length];
          rewrite ?Z.eqb_refl; cbn; repeat split; first [done | lia].
      * specialize (IH k ltac:(lia)).
        assert (Hk' : ((frames_ (obj w) + 1 =? k) = false)%Z)
          by (apply Z.eqb_neq; lia).
        destruct (step_decision _ _ _), (hasInaction (cfg w)),
          (hasAlways (cfg w));
          cbn [calls_at List.filter is_fn call_fn call_frame andb app length];
          rewrite ?Hk', ?andb_false_r; cbn [app length];
          rewrite ?app_nil_r, ?Nat.add_0_r; exact IH.
Qed.

(** X6: in every state an instance can reach, [frames_] is the number of
    iterations run so far and the call log agrees with it, iteration by
    iteration. Every call carries the number of the iteration that made it,
    between 1 and [frames_]. When an always callback was given it has been
    called with the frame numbers 1, 2, 3, ... in order; otherwise never.
    And each iteration [k] from 1 to [frames_] has called the always
    callback exactly once when one was given; when an inaction callback was
    given it has called exactly one of action and inaction; when none was
    given, inaction was never called and action at most once. *)
Theorem call_log_counts_frames (w : World) (H : reachable w) :
  (0 <= frames_ (obj w))%Z /\
  Forall (fun c => (1 <= call_frame c <= frames_ (obj w))%Z)
    (calls (host w)) /\
  (if hasAlways (cfg w)
   then map call_frame (calls_of Always (calls (host w))) =
        map Z.of_nat (seq 1 (Z.to_nat (frames_ (obj w))))
   else calls_of Always (calls (host w)) = []) /\
  (if hasInaction (cfg w)
   then (Z.of_nat (length (calls_of Action (calls (host w)))) +
         Z.of_nat (length (calls_of Inaction (calls (host w)))) =
         frames_ (obj w))%Z
   else calls_of Inaction (calls (host w)) = [] /\
        (Z.of_nat (length (calls_of Action (calls (host w)))) <=
         frames_ (obj w))%Z) /\
  forall k, (1 <= k <= frames_ (obj w))%Z ->
    length (calls_at Always k (calls (host w))) =
    (if hasAlways (cfg w) then 1 else 0)%nat /\
    if hasInaction (cfg w)
    then (length (calls_at Action k (calls (host w))) +
          length (calls_at Inaction k (calls (host w))) = 1)%nat
    else calls_at Inaction k (calls (host w)) = [] /\
         (length (calls_at Action k (calls (host w))) <= 1)%nat.
Proof.
  destruct (call_log_invariant w H)
    as (Hpos & Hframes & Halways & Hle & Heq & Hnone).
  split; [assumption|]. split; [assumption|]. split; [|split].
  - destruct (hasAlways (cfg w)) eqn:Hal.
    + by apply always_frames_invariant.
    + apply length_zero_iff_nil. lia.
  - destruct (hasInaction (cfg w)).
    + by apply Heq.
    + specialize (Hnone eq_refl). split; [assumption|].
      rewrite Hnone in Hle. cbn in Hle. lia.
  - by apply calls_at_invariant.
Qed.

Lemma two_steps_run :
  run [OpLoop (of_Z 100); OpTimeout 1; OpFrame 1 (of_Z 101)] default_raft =
  Ok two_steps_raft.
Proof. vm_compute; reflexivity. Qed.

Lemma two_steps_reachable : reachable two_steps_raft.
Proof.
  exact (run_reachable _ _ _ default_raft_reachable two_steps_run).
Qed.

Lemma call_log_counts_frames_witness :
  reachable two_steps_raft /\
  (1 <= 2 <= frames_ (obj two_steps_raft))%Z /\
  length (calls_at Always 2 (calls (host two_steps_raft))) = 1%nat /\
  (length (calls_at Action 2 (calls (host two_steps_raft))) +
   length (calls_at Inaction 2 (calls (host two_steps_raft))) = 1)%nat.
Proof.
  assert (Hk : (1 <= 2 <= frames_ (obj two_steps_raft))%Z) by (cbn; lia).
  split; [exact two_steps_reachable|]. split; [exact Hk|].
  exact (proj2 (proj2 (proj2 (proj2
           (call_log_counts_frames two_steps_raft two_steps_reachable))))
           2%Z Hk).
Defined.

Example call_log_after_two_iterations :
  map call_fn (calls (host two_steps_raft)) =
  [Inaction; Always; Action; Always] /\
  map call_frame (calls (host two_steps_raft)) = [1; 1; 2; 2]%Z.
Proof. split; vm_compute; reflexivity. Qed.

(** ** The ring buffer *)

(** X7: in every state an instance can reach, the write index of the ring
    buffer is the number of iterations run so far modulo the buffer
    length. *)
Theorem bufferIndex_is_frames_mod_length (w : World) (H : reachable w) :
  Z.of_nat (bufferIndex (obj w)) =
  (frames_ (obj w) mod Z.pos (fpsBufferLength (cfg w)))%Z.
Proof.
  induction H as [options now w Hnew | o w w' _ IH Ho].
  - by apply Raft_returns in Hnew as (n & _ & _ & _ & ->).
  - apply run_op_cases in Ho as [Hu|(time & h & Hs)].
    + destruct Hu as [Hc Hf _ _ _ _ _ Hi _]. by rewrite Hc, Hf, Hi.
    + destruct Hs as [Hcfg Hfr _ _ _ _ Hidx _ _ _].
      cbn [cfg obj with_host] in *.
      rewrite Hcfg, Hfr, Hidx, Nat2Z.inj_mod, Nat2Z.inj_add, IH.
      rewrite positive_nat_Z. apply Zplus_mod_idemp_l.
Qed.

Lemma bufferIndex_is_frames_mod_length_witness :
  reachable started_raft /\
  Z.of_nat (bufferIndex (obj started_raft)) = (1 mod 3)%Z.
Proof.
  split; [exact started_raft_reachable|].
  exact (bufferIndex_is_frames_mod_length started_raft
           started_raft_reachable).
Defined.

Lemma run_app (xs ys : list op) (w : World) :
  run (xs ++ ys) w = let* w1 := run xs w in run ys w1.
Proof.
  revert w. induction xs as [|x xs IH]; intros w; cbn; [reflexivity|].
  destruct (run_op x w) as [w1|]; cbn; [apply IH | reflexivity].
Qed.

Lemma last_cons_default (x d : num) (l : list num) :
  List.last (x :: l) d = List.last l x.
Proof.
  revert x d. induction l as [|y l IH]; intros x d; [reflexivity|].
  change (List.last (x :: y :: l) d) with (List.last (y :: l) d).
  by rewrite !IH.
Qed.

Lemma samples_snoc (last : num) (times : list num) (time : num) :
  samples last (times ++ [time]) =
  samples last times ++ [measure time (List.last times last)].
Proof.
  revert last. induction times as [|t times IH]; intros last;
    [reflexivity|].
  cbn [samples app]. by rewrite IH, last_cons_default.
Qed.

Lemma samples_length (last : num) (times : list num) :
  length (samples last times) = length times.
Proof.
  revert last. induction times as [|t times IH]; intros last; cbn;
    [reflexivity | by rewrite IH].
Qed.

(** Where a sequence of iterations leaves the clock and the write index. *)
Lemma loops_position (times : list num) (w w' : World) :
  wf w -> run (map OpLoop times) w = Ok w' ->
  wf w' /\ cfg w' = cfg w /\
  lastTime (obj w') = List.last times (lastTime (obj w)) /\
  bufferIndex (obj w') =
  ((bufferIndex (obj w) + length times)
   mod Pos.to_nat (fpsBufferLength (cfg w)))%nat.
Proof.
  intros Hw. revert w'.
  induction times as [|time times IH] using rev_ind; intros w'.
  - cbn [map run]. intros [= <-]. split; [assumption|].
    split; [reflexivity|]. split; [reflexivity|].
    cbn [length List.last]. rewrite Nat.add_0_r. symmetry.
    apply Nat.mod_small, Hw.
  - rewrite map_app, run_app. cbn [map].
    destruct (run (map OpLoop times) w) as [w1|] eqn:H1; [|discriminate].
    destruct (IH w1 eq_refl) as (Hw1 & Hcfg1 & Hlast1 & Hidx1).
    cbn. destruct (loop time w1) as [w2|] eqn:H2; [|discriminate].
    cbn. intros [= <-].
    pose proof (loop_stepped _ _ _ H2) as Hs.
    split; [by apply loop_wf in H2|].
    split; [rewrite (st_cfg _ _ _ Hs); assumption|].
    split; [rewrite (st_lastTime _ _ _ Hs); by rewrite last_last|].
    rewrite (st_index _ _ _ Hs), Hidx1, Hcfg1, length_app. cbn [length].
    rewrite Nat.Div0.add_mod_idemp_l. f_equal. lia.
Qed.

Lemma mod_shift_ne (n i j k : nat) :
  (j < k < n)%nat -> ((i + j) mod n)%nat <> ((i + k) mod n)%nat.
Proof.
  intros Hjk Heq.
  assert (Hn : n <> 0%nat) by lia.
  pose proof (Nat.div_mod_eq (i + j) n) as H1.
  pose proof (Nat.div_mod_eq (i + k) n) as H2.
  rewrite Heq in H1.
  assert (Hd : (k - j = n * ((i + k) / n - (i + j) / n))%nat) by nia.
  destruct ((i + k) / n - (i + j) / n)%nat; nia.
Qed.

(** X8: the buffer is a ring of the latest samples. After a sequence of at
    most [fpsBufferLength] iterations, started with the write index at [i],
    the slot [(i + j) mod fpsBufferLength] holds the sample of the [j]-th
    of these iterations, and every other slot holds what it held before;
    after exactly [fpsBufferLength] iterations nothing older is left. *)
Theorem fpsBuffer_holds_latest_samples (times : list num) (w w' : World)
    (Hw : reachable w)
    (Hrun : run (map OpLoop times) w = Ok w')
    (Hlen : (length times <= Pos.to_nat (fpsBufferLength (cfg w)))%nat) :
  let n := Pos.to_nat (fpsBufferLength (cfg w)) in
  let i := bufferIndex (obj w) in
  (forall j s,
     samples (lastTime (obj w)) times !! j = Some s ->
     fpsBuffer (obj w') !! ((i + j) mod n)%nat = Some s) /\
  (forall k,
     (forall j, (j < length times)%nat -> k <> ((i + j) mod n)%nat) ->
     fpsBuffer (obj w') !! k = fpsBuffer (obj w) !! k) /\
  (length times = n ->
   forall k, (k < n)%nat ->
     exists j, (j < n)%nat /\ k = ((i + j) mod n)%nat /\
               fpsBuffer (obj w') !! k =
               samples (lastTime (obj w)) times !! j).
Proof.
  apply reachable_wf in Hw. intros n i.
  assert (Hmain :
    (forall j s,
       samples (lastTime (obj w)) times !! j = Some s ->
       fpsBuffer (obj w') !! ((i + j) mod n)%nat = Some s) /\
    (forall k,
       (forall j, (j < length times)%nat -> k <> ((i + j) mod n)%nat) ->
       fpsBuffer (obj w') !! k = fpsBuffer (obj w) !! k)).
  { revert w' Hrun Hlen.
    induction times as [|time times IH] using rev_ind; intros w' Hrun Hlen.
    - cbn in Hrun. injection Hrun as <-. split; [|done].
      intros j s Hj. by destruct j.
    - rewrite map_app, run_app in Hrun. cbn [map] in Hrun.
      destruct (run (map OpLoop times) w) as [w1|] eqn:H1; [|discriminate].
      cbn in Hrun.
      destruct (loop time w1) as [w2|] eqn:H2; [|discriminate].
      cbn in Hrun. injection Hrun as <-.
      rewrite length_app in Hlen. cbn [length] in Hlen.
      destruct (IH w1 eq_refl ltac:(lia)) as [IHs IHk].
      destruct (loops_position times w w1 Hw H1)
        as (Hw1 & Hcfg1 & Hlast1 & Hidx1).
      pose proof (loop_stepped _ _ _ H2) as Hs.
      assert (Hbuf : fpsBuffer (obj w2) =
                     <[((i + length times) mod n)%nat :=
                         measure time (List.last times (lastTime (obj w)))]>
                       (fpsBuffer (obj w1))).
      { rewrite (st_buffer _ _ _ Hs), Hidx1, Hlast1.
        apply array_set_in_range.
        rewrite (wf_length _ Hw1), Hcfg1. apply Nat.mod_upper_bound.
        unfold n. lia. }
      rewrite Hbuf. split.
      + intros j s. rewrite samples_snoc.
        destruct (decide (j < length times)%nat) as [Hj|Hj].
        * rewrite lookup_app_l by (rewrite samples_length; lia).
          intros Hsj. rewrite list_lookup_insert_ne.
          -- by apply IHs.
          -- apply not_eq_sym, mod_shift_ne. unfold n. lia.
        * rewrite lookup_app_r by (rewrite samples_length; lia).
          rewrite samples_length.
          destruct (j - length times)%nat eqn:Hd; [|by destruct n0].
          cbn. intros [= <-].
          replace j with (length times) by lia.
          apply list_lookup_insert_eq.
          rewrite (wf_length _ Hw1), Hcfg1. apply Nat.mod_upper_bound.
          unfold n. lia.
      + intros k Hk. rewrite list_lookup_insert_ne.
        * apply IHk. intros j Hj. apply Hk.
          rewrite length_app. cbn. lia.
        * apply not_eq_sym, Hk. rewrite length_app. cbn. lia. }
  split; [apply Hmain|]. split; [apply Hmain|].
  intros Hfull k Hk.
  exists ((k + n - i) mod n)%nat.
  assert (Hi : (i < n)%nat) by apply Hw.
  assert (Hj : ((k + n - i) mod n < n)%nat)
    by (apply Nat.mod_upper_bound; lia).
  assert (Hkj : k = ((i + (k + n - i) mod n) mod n)%nat).
  { rewrite Nat.Div0.add_mod_idemp_r.
    replace (i + (k + n - i))%nat with (k + 1 * n)%nat by lia.
    rewrite Nat.Div0.mod_add. symmetry. by apply Nat.mod_small. }
  split; [assumption|]. split; [assumption|].
  destruct (samples (lastTime (obj w)) times !! ((k + n - i) mod n)%nat)
    as [s|] eqn:Hs.
  - rewrite Hkj at 1. by apply Hmain.
  - apply lookup_ge_None in Hs. rewrite samples_length in Hs. lia.
Qed.

Lemma fpsBuffer_holds_latest_samples_witness :
  reachable default_raft /\
  exists w',
    run (map OpLoop [of_Z 100; of_Z 150; of_Z 250]) default_raft = Ok w' /\
    fpsBuffer (obj w') !! 1%nat = Some (of_Z 20).
Proof.
  split; [exact default_raft_reachable|].
  destruct (loops_return [of_Z 100; of_Z 150; of_Z 250] default_raft
              (reachable_wf _ default_raft_reachable)) as (w' & Hrun & _).
  exists w'. split; [exact Hrun|].
  assert (Hs : samples (lastTime (obj default_raft))
                 [of_Z 100; of_Z 150; of_Z 250] !! 1%nat = Some (of_Z 20))
    by (vm_compute; reflexivity).
  exact (proj1 (fpsBuffer_holds_latest_samples
                  [of_Z 100; of_Z 150; of_Z 250] default_raft w'
                  default_raft_reachable Hrun (le_n 3)) 1%nat (of_Z 20) Hs).
Defined.

(** ** Counting down a calibration *)

Lemma same_eq (a b : num) : same a b = true -> a = b.
Proof.
  destruct a as [s|s| |s m e], b as [s'|s'| |s' m' e']; cbn; try done.
  - by intros ->%eqb_prop.
  - by intros ->%eqb_prop.
  - intros [[->%eqb_prop ->%Pos.eqb_eq]%andb_prop ->%Z.eqb_eq]%andb_prop.
    reflexivity.
Qed.

Lemma counts_down_all :
  forallb counts_down (map Z.of_nat (seq 1 (Z.to_nat max_count))) = true.
Proof. vm_compute; reflexivity. Qed.

(** The counter counts down like the integers. *)
Lemma counts_down_upto (c : Z) :
  (1 <= c <= max_count)%Z ->
  Num.truthy (of_Z c) = true /\
  Num.sub (of_Z c) one = of_Z (c - 1) /\
  Num.lt (of_Z (c - 1)) one = (c - 1 <? 1)%Z.
Proof.
  intros Hc.
  assert (Hin : In c (map Z.of_nat (seq 1 (Z.to_nat max_count)))).
  { apply in_map_iff. exists (Z.to_nat c). split; [lia|].
    apply in_seq. lia. }
  pose proof (proj1 (forallb_forall _ _) counts_down_all c Hin) as H.
  unfold counts_down in H.
  apply andb_prop in H as [[Ht Hs]%andb_prop Hl].
  split; [assumption|]. split; [by apply same_eq | by apply eqb_prop].
Qed.

(** An iteration changes the target exactly when it completes a
    calibration, and then it prints the new target. *)
Lemma loop_target (time : num) (w w' : World) :
  loop time w = Ok w' ->
  (targetFps (obj w') = targetFps (obj w) /\
   console (host w') = console (host w) /\
   (updatingTargetFps (obj w) = false \/
    Num.lt (Num.sub (to_number (frameCount (obj w))) one) one = false)) \/
  (updatingTargetFps (obj w) = true /\
   Num.lt (Num.sub (to_number (frameCount (obj w))) one) one = true /\
   updatingTargetFps (obj w') = false /\
   console (host w') = console (host w) ++ [targetFps (obj w')]).
Proof.
  open_loop; cbn;
    rewrite ?console_cancelAnimationFrame, ?console_clearTimeout;
    first [ by (right; repeat split)
          | by (left; repeat split; right)
          | by (left; repeat split; left) ].
Qed.

(** While the counter stays at [1] or more, the iterations collect their
    samples and leave the target alone. *)
Lemma calibration_continues (times : list num) (w : World)
    (buffer : list num) (c : Z) :
  updatingTargetFps (obj w) = true ->
  calibrateTargetBuffer_ (obj w) = Some buffer ->
  frameCount (obj w) = Some (of_Z c) ->
  (Z.of_nat (length times) < c <= max_count)%Z ->
  exists w',
    run (map OpLoop times) w = Ok w' /\
    updatingTargetFps (obj w') = true /\
    calibrateTargetBuffer_ (obj w') =
    Some (buffer ++ samples (lastTime (obj w)) times) /\
    frameCount (obj w') = Some (of_Z (c - Z.of_nat (length times))) /\
    lastTime (obj w') = List.last times (lastTime (obj w)) /\
    targetFps (obj w') = targetFps (obj w) /\
    console (host w') = console (host w).
Proof.
  revert w buffer c.
  induction times as [|time times IH]; intros w buffer c Hcal Hbuf Hc Hlen.
  - exists w. cbn. rewrite app_nil_r, Z.sub_0_r. by repeat split.
  - cbn [length] in Hlen.
    destruct (counts_down_upto c ltac:(lia)) as (_ & Hsub & Hlt).
    destruct (loop_calibrating_continues time w buffer Hcal Hbuf)
      as (w1 & Hl & Hcal1 & Hbuf1 & Hc1 & Hlast1 & Htarget1).
    { rewrite Hc. cbn [to_number]. rewrite Hsub, Hlt.
      apply Z.ltb_ge. lia. }
    rewrite Hc in Hc1. cbn [to_number] in Hc1. rewrite Hsub in Hc1.
    destruct (IH w1 _ _ Hcal1 Hbuf1 Hc1 ltac:(lia))
      as (w' & Hrun & Hcal' & Hbuf' & Hc' & Hlast' & Htarget' & Hlog').
    exists w'. cbn [map run run_op]. rewrite Hl. cbn [bind].
    split; [assumption|]. split; [assumption|].
    split; [rewrite Hbuf', Hlast1, <- app_assoc; reflexivity|].
    split; [rewrite Hc'; do 2 f_equal; cbn [length]; lia|].
    split; [rewrite Hlast', Hlast1; by rewrite last_cons_default|].
    split; [congruence|].
    rewrite Hlog'.
    apply loop_target in Hl as [(_ & Hlog & _)|(_ & Hlt' & _)];
      [assumption|].
    rewrite Hc in Hlt'. cbn [to_number] in Hlt'.
    rewrite Hsub, Hlt in Hlt'. apply Z.ltb_lt in Hlt'. lia.
Qed.

(** X10: [calibrateTargetFps(c)] with an integer [c] from 1 to 4096
    calibrates over exactly [c] iterations, from any state. During the
    first [c - 1] of them calibration stays active and the target is the
    old one; the [c]-th ends the calibration, sets the target to the sum of
    the [c] samples, added up in order, divided by [c], plus [0.5] (each
    operation rounded as the language rounds it), and prints it. *)
Theorem calibration_takes_frameCount_iterations (w : World) (c : Z)
    (times : list num) (time : num)
    (Hc : (Z.of_nat (length times) + 1 = c)%Z)
    (Hmax : (c <= max_count)%Z) :
  let w1 := calibrateTargetFps (Some (of_Z c)) w in
  let all := samples (lastTime (obj w)) (times ++ [time]) in
  (forall k, (k <= length times)%nat ->
     exists wk,
       run (map OpLoop (take k times)) w1 = Ok wk /\
       updatingTargetFps (obj wk) = true /\
       targetFps (obj wk) = targetFps (obj w)) /\
  exists w',
    run (map OpLoop (times ++ [time])) w1 = Ok w' /\
    updatingTargetFps (obj w') = false /\
    calibrateTargetBuffer_ (obj w') = Some all /\
    length all = Z.to_nat c /\
    targetFps (obj w') =
    Num.add (Num.div (total all) (of_nat (length all))) (Fin (1 # 2)) /\
    console (host w') = console (host w) ++ [targetFps (obj w')].
Proof.
  intros w1 all.
  assert (Hcal1 : updatingTargetFps (obj w1) = true)
    by (unfold w1, calibrateTargetFps;
        by destruct (calibrationPeriod (cfg w))).
  assert (Hbuf1 : calibrateTargetBuffer_ (obj w1) = Some [])
    by (unfold w1, calibrateTargetFps;
        by destruct (calibrationPeriod (cfg w))).
  assert (Hcount1 : frameCount (obj w1) = Some (of_Z c)).
  { unfold w1, calibrateTargetFps, num_or.
    rewrite (proj1 (counts_down_upto c ltac:(lia))).
    by destruct (calibrationPeriod (cfg w)). }
  assert (Hlast1 : lastTime (obj w1) = lastTime (obj w))
    by apply calibrateTargetFps_untouched.
  assert (Htarget1 : targetFps (obj w1) = targetFps (obj w))
    by (unfold w1, calibrateTargetFps;
        by destruct (calibrationPeriod (cfg w))).
  assert (Hlog1 : console (host w1) = console (host w))
    by (unfold w1, calibrateTargetFps;
        by destruct (calibrationPeriod (cfg w))).
  split.
  - intros k Hk.
    destruct (calibration_continues (take k times) w1 [] c Hcal1 Hbuf1
                Hcount1) as (wk & Hrun & Hcalk & _ & _ & _ & Htargetk & _).
    { rewrite length_take. lia. }
    exists wk. split; [assumption|]. split; [assumption | congruence].
  - destruct (calibration_continues times w1 [] c Hcal1 Hbuf1 Hcount1)
      as (wk & Hrun & Hcalk & Hbufk & Hck & Hlastk & Htargetk & Hlogk);
      [lia|].
    destruct (loop_calibrating_completes time wk _ Hcalk Hbufk)
      as (w' & Hl & Hidle & Hbuf' & _ & Htarget' & Hlog').
    { rewrite Hck. cbn [to_number].
      destruct (counts_down_upto (c - Z.of_nat (length times)) ltac:(lia))
        as (_ & -> & ->).
      apply Z.ltb_lt. lia. }
    assert (Hall : [] ++ samples (lastTime (obj w1)) times ++
                   [measure time (lastTime (obj wk))] = all).
    { unfold all. rewrite samples_snoc, Hlastk, Hlast1. reflexivity. }
    cbn [app] in Hall. cbn [app] in Hbuf', Htarget'.
    rewrite Hall in Hbuf', Htarget'.
    exists w'. rewrite map_app, run_app, Hrun. cbn. rewrite Hl. cbn.
    split; [reflexivity|]. split; [assumption|]. split; [assumption|].
    split; [unfold all; rewrite samples_length, length_app; cbn; lia|].
    split; [assumption|]. rewrite Hlog', Hlogk, Hlog1. reflexivity.
Qed.

Lemma calibration_takes_frameCount_iterations_witness :
  (Z.of_nat (length [of_Z 100; of_Z 150]) + 1 = 3)%Z /\
  exists w',
    run (map OpLoop [of_Z 100; of_Z 150; of_Z 250])
      (calibrateTargetFps (Some (of_Z 3)) default_raft) = Ok w' /\
    updatingTargetFps (obj w') = false /\
    calibrateTargetBuffer_ (obj w') = Some [of_Z 10; of_Z 20; of_Z 10].
Proof.
  split; [reflexivity|].
  assert (Hmax : (3 <= max_count)%Z) by (unfold max_count; lia).
  destruct (calibration_takes_frameCount_iterations default_raft 3
              [of_Z 100; of_Z 150] (of_Z 250) eq_refl Hmax)
    as (_ & w' & Hrun & Hidle & Hbuf & _).
  exists w'. split; [exact Hrun|]. split; [exact Hidle|].
  rewrite Hbuf. vm_compute; reflexivity.
Defined.

Lemma run_op_target (o : op) (w w' : World) :
  run_op o w = Ok w' ->
  (targetFps (obj w') = targetFps (obj w) /\
   console (host w') = console (host w)) \/
  console (host w') = console (host w) ++ [targetFps (obj w')].
Proof.
  destruct o; cbn.
  - intros H. apply loop_target in H as [(? & ? & _)|(_ & _ & _ & ?)];
      [by left | by right].
  - intros [= <-]. left. unfold cancel, cancelAnimationFrame, clearTimeout.
    by destruct (request (obj w)), (timeout (obj w)).
  - intros [= <-]. left. unfold calibrateTargetFps.
    by destruct (calibrationPeriod (cfg w)).
  - unfold updateCalibrationBuffer_.
    destruct (calibrateTargetBuffer_ (obj w)); [|discriminate].
    destruct (Num.lt _ _); intros [= <-]; [by right | by left].
  - intros [= <-]. left. unfold fire_timeout.
    destruct (List.find _ _) as [t|]; [|done].
    destruct (timer_task t); [done|].
    unfold calibrateTargetFps. cbn [cfg with_host].
    by destruct (calibrationPeriod (cfg w)).
  - unfold fire_frame. destruct (existsb _ _); [|intros [= <-]; by left].
    intros H. apply loop_target in H as [(? & ? & _)|(_ & _ & _ & ?)];
      [by left | by right].
Qed.

(** X11: the target FPS only changes when a calibration completes, and
    every change is printed: whatever happens to an instance, its target is
    the last value printed on the console, or the target the constructor
    chose when nothing has been printed. *)
Theorem targetFps_is_last_printed (options : Options) (now : num)
    (w0 w : World) (os : list op)
    (Hnew : Raft options now = Ok w0)
    (Hrun : run os w0 = Ok w) :
  targetFps (obj w) =
  List.last (console (host w))
    (num_or (opt_targetFps options) (Fin (121 # 2))).
Proof.
  assert (Hinit : targetFps (obj w0) =
                  List.last (console (host w0))
                    (num_or (opt_targetFps options) (Fin (121 # 2))))
    by (by apply Raft_returns in Hnew as (n & _ & _ & _ & ->)).
  clear Hnew. revert w0 Hinit Hrun.
  induction os as [|o os IH]; intros w0 Hinit; cbn.
  - by intros [= <-].
  - destruct (run_op o w0) as [w1|] eqn:H1; [|discriminate]. cbn.
    apply IH.
    apply run_op_target in H1 as [[Ht Hlog]|Hlog]; rewrite Hlog.
    + congruence.
    + by rewrite last_last.
Qed.

Lemma targetFps_is_last_printed_witness :
  Raft default_options zero = Ok default_raft /\
  exists w,
    run [OpCalibrate (Some (of_Z 2)); OpLoop (of_Z 100); OpLoop (of_Z 150)]
      default_raft = Ok w /\
    console (host w) = [Fin (31 # 2)] /\
    targetFps (obj w) = List.last (console (host w)) (Fin (121 # 2)).
Proof.
  split; [exact default_raft_new|].
  eexists. split; [vm_compute; reflexivity|].
  split; [vm_compute; reflexivity|].
  refine (targetFps_is_last_printed default_options zero default_raft _
            [OpCalibrate (Some (of_Z 2)); OpLoop (of_Z 100);
             OpLoop (of_Z 150)] default_raft_new _).
  vm_compute. reflexivity.
Defined.

(** ** A loop that is not cancelled keeps going *)

Lemma cancel_nothing_pending (w : World) :
  timers (host w) = [] -> frames (host w) = [] ->
  timers (host (cancel w)) = [] /\ frames (host (cancel w)) = [].
Proof.
  intros Ht Hf.
  unfold cancel, with_host, cancelAnimationFrame, clearTimeout.
  cbn [host].
  by destruct (request (obj w)), (timeout (obj w)); cbn; rewrite ?Ht, ?Hf.
Qed.

Lemma loop_one_pending (time : num) (w w' : World) :
  timers (host w) = [] -> frames (host w) = [] ->
  loop time w = Ok w' -> one_pending w'.
Proof.
  intros Ht Hf Hl.
  apply loop_schedules in Hl
    as (w0 & H0 & Htimers & Hframes & _ & _ & Htimeout & _).
  assert (H00 : timers (host w0) = [] /\ frames (host w0) = [])
    by (destruct H0 as [-> | ->]; [done | by apply cancel_nothing_pending]).
  destruct H00 as [Ht0 Hf0].
  left. exists (next_timer (host w)), (loopTimeout (cfg w)).
  rewrite Htimers, Hframes, Ht0, Hf0. by repeat split.
Qed.

Lemma fire_timeout_one_pending (id : nat) (w : World) :
  one_pending w -> one_pending (fire_timeout id w).
Proof.
  intros [(id0 & delay & Ht & Hf & Hto)|(f & Ht & Hf & Hreq)];
    unfold fire_timeout; rewrite Ht; cbn [List.find timer_id].
  - destruct (Nat.eqb_spec id0 id) as [->|Hne].
    + cbn. right. exists (next_frame (host w)). rewrite Ht, Hf.
      rewrite filter_cons_False by (cbn; intros H; by apply H).
      by repeat split.
    + left. by exists id0, delay.
  - right. by exists f.
Qed.

Lemma fire_frame_one_pending (id : nat) (time : num) (w w' : World) :
  one_pending w -> fire_frame id time w = Ok w' -> one_pending w'.
Proof.
  intros [(id0 & delay & Ht & Hf & Hto)|(f & Ht & Hf & Hreq)];
    unfold fire_frame; rewrite Hf; cbn [existsb orb].
  - intros [= <-]. left. by exists id0, delay.
  - destruct (Nat.eqb_spec id f) as [->|Hne]; cbn [orb].
    + apply loop_one_pending; cbn; [assumption|]. rewrite Hf.
      by rewrite filter_cons_False by (intros H; by apply H).
    + intros [= <-]. right. by exists f.
Qed.

Lemma run_op_one_pending (o : op) (w w' : World) :
  calibrationPeriod (cfg w) = None -> keeps_running o = true ->
  one_pending w -> run_op o w = Ok w' -> one_pending w'.
Proof.
  intros Hp Ho Hw. destruct o; try discriminate; cbn.
  - intros [= <-]. unfold calibrateTargetFps. by rewrite Hp.
  - unfold updateCalibrationBuffer_.
    destruct (calibrateTargetBuffer_ (obj w)); [|discriminate].
    destruct (Num.lt _ _); by intros [= <-].
  - intros [= <-]. by apply fire_timeout_one_pending.
  - by apply fire_frame_one_pending.
Qed.

(** X12: a loop that was started and not cancelled never stops by itself.
    After one call of [loop()] on a new instance, and whatever timers and
    frames the host runs and calibration calls are made afterwards, exactly
    one step is scheduled (the timer [this.timeout] names or the frame
    [this.request] names), and the host can always run the next iteration. *)
Theorem started_loop_keeps_one_step_pending (options : Options)
    (now time : num) (w0 w : World) (os : list op)
    (Hnew : Raft options now = Ok w0)
    (Hos : Forall (fun o => keeps_running o = true) os)
    (Hrun : run (OpLoop time :: os) w0 = Ok w) :
  one_pending w /\
  forall time' : num, exists evs w',
    Forall (fun o => host_event o = true) evs /\
    run evs w = Ok w' /\
    frames_ (obj w') = (frames_ (obj w) + 1)%Z /\
    lastTime (obj w') = time' /\
    one_pending w'.
Proof.
  assert (Hr0 : reachable w0) by exact (reach_new _ _ _ Hnew).
  assert (Hr : reachable w) by exact (run_reachable _ _ _ Hr0 Hrun).
  assert (Hone : one_pending w).
  { cbn in Hrun. destruct (loop time w0) as [w1|] eqn:H1; [|discriminate].
    cbn in Hrun.
    assert (Hr1 : reachable w1) by exact (reach_op (OpLoop time) _ _ Hr0 H1).
    assert (H1p : one_pending w1).
    { apply (loop_one_pending time w0); [| |assumption];
        by apply Raft_returns in Hnew as (n & _ & _ & _ & ->). }
    clear Hnew Hr0 H1 Hr. revert w1 Hr1 H1p Hrun.
    induction Hos as [|o os Ho _ IH]; intros w1 Hr1 H1p; cbn.
    - by intros [= <-].
    - destruct (run_op o w1) as [w2|] eqn:H2; [|discriminate]. cbn.
      apply IH; [by apply reach_op with o w1|].
      apply (run_op_one_pending o w1);
        [apply (reachable_wf _ Hr1) | assumption..]. }
  split; [assumption|]. intros time'.
  pose proof (reachable_wf _ Hr) as Hw.
  destruct Hone as [(id & delay & Ht & Hf & Hto)|(f & Ht & Hf & Hreq)].
  - set (w1 := fire_timeout id w).
    assert (H1 : one_pending w1) by (apply fire_timeout_one_pending; left;
                                     by exists id, delay).
    assert (Hf1 : frames (host w1) = [next_frame (host w)]).
    { unfold w1, fire_timeout. rewrite Ht. cbn [List.find timer_id].
      rewrite Nat.eqb_refl. cbn. by rewrite Hf. }
    assert (Hw1 : wf w1) by (by apply fire_timeout_wf).
    destruct (loop_returns time'
                (with_host (drop_frame (next_frame (host w)) (host w1)) w1))
      as [w2 H2]; [apply Hw1|].
    exists [OpTimeout id; OpFrame (next_frame (host w)) time'], w2.
    split; [by repeat constructor|].
    assert (Hff : fire_frame (next_frame (host w)) time' w1 = Ok w2).
    { unfold fire_frame. rewrite Hf1. cbn [existsb]. rewrite Nat.eqb_refl.
      exact H2. }
    split; [cbn; fold w1; by rewrite Hff|].
    split; [|split].
    + rewrite (st_frames _ _ _ (loop_stepped _ _ _ H2)).
      cbn [obj with_host]. f_equal.
      apply (un_frames _ _ (fire_timeout_untouched id w)).
    + apply (st_lastTime _ _ _ (loop_stepped _ _ _ H2)).
    + by apply (fire_frame_one_pending _ _ _ _ H1 Hff).
  - destruct (loop_returns time' (with_host (drop_frame f (host w)) w))
      as [w2 H2]; [apply Hw|].
    assert (Hff : fire_frame f time' w = Ok w2).
    { unfold fire_frame. rewrite Hf. cbn [existsb]. rewrite Nat.eqb_refl.
      exact H2. }
    exists [OpFrame f time'], w2.
    split; [by repeat constructor|].
    split; [cbn; by rewrite Hff|].
    split; [|split].
    + by rewrite (st_frames _ _ _ (loop_stepped _ _ _ H2)).
    + apply (st_lastTime _ _ _ (loop_stepped _ _ _ H2)).
    + apply (fire_frame_one_pending f time' w); [|assumption].
      right. by exists f.
Qed.

Lemma started_loop_keeps_one_step_pending_witness :
  Raft default_options zero = Ok default_raft /\
  exists w,
    run [OpLoop (of_Z 100); OpTimeout 1] default_raft = Ok w /\
    one_pending w.
Proof.
  split; [exact default_raft_new|].
  eexists. split; [vm_compute; reflexivity|].
  refine (proj1 (started_loop_keeps_one_step_pending default_options zero
                   (of_Z 100) default_raft _ [OpTimeout 1%nat]
                   default_raft_new _ _)).
  - repeat constructor.
  - vm_compute. reflexivity.
Defined.
(** ** Two readings of the same instant *)

Lemma le_PInf_l (a : num) : Num.le PInf a = true -> a = PInf.
Proof.
  unfold Num.le, SFleb. destruct a as [s|s| |s m e]; cbn; try done.
  by destruct s.
Qed.

(** X15: an iteration that reads the clock at the very instant of the last
    recorded time divides by zero: its sample is [Infinity], [maxFps]
    becomes [Infinity], and it stays [Infinity] whatever happens to the
    instance afterwards. *)
Theorem zero_elapsed_time_sets_maxFps_to_infinity (w : World) (t : num)
    (H : reachable w)
    (Hfinite : finite t = true)
    (Hlast : lastTime (obj w) = t) :
  exists w',
    loop t w = Ok w' /\
    measure t (lastTime (obj w)) = PInf /\
    maxFps (obj w') = PInf /\
    forall os w'', run os w' = Ok w'' -> maxFps (obj w'') = PInf.
Proof.
  pose proof (reachable_wf w H) as Hw.
  destruct (loop_returns t w (wf_calibrating _ Hw)) as [w' Hl].
  exists w'. split; [assumption|].
  assert (Hfps : measure t (lastTime (obj w)) = PInf)
    by (rewrite Hlast; by apply measure_same_instant).
  split; [assumption|].
  assert (Hmax : maxFps (obj w') = PInf).
  { rewrite (st_max _ _ _ (loop_stepped _ _ _ Hl)), Hfps.
    destruct (Num.gt PInf (maxFps (obj w))) eqn:Hgt; [reflexivity|].
    apply not_lt_PInf in Hgt as [Hgt|Hgt]; [assumption|].
    by destruct (wf_max _ Hw). }
  split; [assumption|].
  pose proof (loop_wf _ _ _ Hw Hl) as Hw'.
  clear Hl Hfps. revert w' Hw' Hmax.
  intros w' Hw' Hmax os. revert w' Hw' Hmax.
  induction os as [|o os IH]; intros w' Hw' Hmax w''; cbn.
  - by intros [= <-].
  - destruct (run_op o w') as [w1|] eqn:H1; [|discriminate]. cbn.
    apply IH; [by apply run_op_wf in H1|].
    apply le_PInf_l. rewrite <- Hmax. by apply run_op_maxFps with o.
Qed.

Lemma zero_elapsed_time_sets_maxFps_to_infinity_witness :
  reachable started_raft /\
  finite (of_Z 100) = true /\
  lastTime (obj started_raft) = of_Z 100 /\
  exists w', loop (of_Z 100) started_raft = Ok w' /\ maxFps (obj w') = PInf.
Proof.
  assert (Hlast : lastTime (obj started_raft) = of_Z 100)
    by (vm_compute; reflexivity).
  split; [exact started_raft_reachable|]. split; [reflexivity|].
  split; [exact Hlast|].
  destruct (zero_elapsed_time_sets_maxFps_to_infinity started_raft (of_Z 100)
              started_raft_reachable eq_refl Hlast)
    as (w' & Hl & _ & Hmax & _).
  exists w'. exact (conj Hl Hmax).
Defined.

(** ** The first iteration *)

(** Adding the positive zero changes no number but the negative zero. *)
Lemma add_zero_l (q : num) : q <> S754_zero true -> Num.add zero q = q.
Proof. destruct q as [[]| | |]; by cbn. Qed.

Lemma add_zero_r_sum (q : num) : Num.add (Num.add zero q) zero = Num.add zero q.
Proof. by destruct q as [[]|[]| |]. Qed.

Lemma total_zeros (k : nat) (q : num) :
  fold_left Num.add (replicate k zero) (Num.add zero q) = Num.add zero q.
Proof.
  induction k as [|k IH]; [reflexivity|].
  cbn [replicate fold_left]. by rewrite add_zero_r_sum.
Qed.

(** X17: the first iteration averages its sample with the zeros the buffer
    starts with. After any construction, with [q] the first sample, the
    buffer holds [q] and zeros, its sum is [0 + q] (which is [q], unless
    [q] is the negative zero), the average the iteration reports is the
    floor of that sum divided by the buffer length, and it calls the action
    callback exactly when the sum exceeds the target times the buffer
    length. *)
Theorem first_iteration_averages_in_zeros (options : Options)
    (now time : num) (w0 : World)
    (Hnew : Raft options now = Ok w0) :
  let n := Pos.to_nat (fpsBufferLength (cfg w0)) in
  let q := measure time now in
  exists w',
    loop time w0 = Ok w' /\
    fpsBuffer (obj w') = q :: replicate (n - 1) zero /\
    total (fpsBuffer (obj w')) = Num.add zero q /\
    (q <> S754_zero true -> total (fpsBuffer (obj w')) = q) /\
    avgFps (obj w') =
    Some (Num.floor (Num.div (Num.add zero q) (of_nat n))) /\
    invoked Action (new_calls w0 w') =
    Num.gt (Num.add zero q) (Num.mul (targetFps (obj w0)) (of_nat n)).
Proof.
  intros n q.
  pose proof (Raft_wf _ _ _ Hnew) as Hw.
  assert (Hinit : lastTime (obj w0) = now /\ bufferIndex (obj w0) = 0%nat /\
                  updatingTargetFps (obj w0) = false /\
                  fpsBuffer (obj w0) = replicate n zero).
  { unfold n. apply Raft_returns in Hnew as (k & _ & Hk & _ & ->). cbn.
    repeat split. f_equal. lia. }
  destruct Hinit as (Hlast & Hidx & Hidle & Hbuf0).
  destruct (loop_returns time w0 (wf_calibrating _ Hw)) as [w' Hl].
  exists w'. split; [assumption|].
  pose proof (loop_stepped _ _ _ Hl) as Hs.
  pose proof (loop_wf _ _ _ Hw Hl) as Hw'.
  assert (Hn : n = S (n - 1)) by (unfold n; lia).
  assert (Hbuf : fpsBuffer (obj w') = q :: replicate (n - 1) zero).
  { rewrite (st_buffer _ _ _ Hs), Hlast, Hidx, Hbuf0.
    rewrite array_set_in_range by (rewrite length_replicate; lia).
    by rewrite Hn at 1. }
  split; [assumption|].
  assert (Hlen : length (fpsBuffer (obj w')) = n)
    by (unfold n; rewrite <- (st_cfg _ _ _ Hs); apply Hw').
  assert (Htotal : total (fpsBuffer (obj w')) = Num.add zero q)
    by (rewrite Hbuf; apply total_zeros).
  split; [assumption|].
  split; [intros Hq; by rewrite Htotal, add_zero_l|].
  split.
  - rewrite (st_avg _ _ _ Hs). fold n.
    by rewrite <- Hlen, sum_upto_total, Htotal, Hlen.
  - rewrite (step_calls _ _ _ Hw Hl), Hidle, Htotal. fold n.
    cbn [negb andb].
    by destruct (Num.gt _ _), (hasInaction (cfg w0)), (hasAlways (cfg w0)).
Qed.

Lemma first_iteration_averages_in_zeros_witness :
  Raft default_options zero = Ok default_raft /\
  exists w',
    loop (of_Z 5) default_raft = Ok w' /\
    fpsBuffer (obj w') = [of_Z 200; zero; zero] /\
    avgFps (obj w') = Some (of_Z 66) /\
    invoked Action (new_calls default_raft w') = true.
Proof.
  split; [exact default_raft_new|].
  destruct (first_iteration_averages_in_zeros default_options zero (of_Z 5)
              default_raft default_raft_new)
    as (w' & Hl & Hbuf & _ & _ & Havg & Hact).
  exists w'. split; [exact Hl|].
  split; [rewrite Hbuf; vm_compute; reflexivity|].
  split; [rewrite Havg; vm_compute; reflexivity|].
  rewrite Hact. vm_compute; reflexivity.
Defined.

(** ** Restarting after a cancel *)

(** X18: a cancelled loop can be restarted. With exactly one step
    scheduled, [cancel] leaves no timer and no frame pending, and a call of
    [loop()] after it runs the next iteration (the frame count goes on from
    where it was) and schedules exactly one step again. *)
Theorem cancel_then_loop_restarts (w : World) (time : num)
    (H : reachable w) (Hone : one_pending w) :
  timers (host (cancel w)) = [] /\
  frames (host (cancel w)) = [] /\
  exists w',
    run [OpCancel; OpLoop time] w = Ok w' /\
    frames_ (obj w') = (frames_ (obj w) + 1)%Z /\
    one_pending w'.
Proof.
  assert (Hcleared : timers (host (cancel w)) = [] /\
                     frames (host (cancel w)) = []).
  { unfold cancel, with_host, cancelAnimationFrame, clearTimeout.
    cbn [host].
    destruct Hone as [(id & delay & Ht & Hf & Hto)|(f & Ht & Hf & Hreq)].
    - rewrite Hto. destruct (request (obj w)); cbn; rewrite Ht, Hf;
        rewrite filter_cons_False by (cbn; intros Hn; by apply Hn); done.
    - rewrite Hreq. destruct (timeout (obj w)); cbn; rewrite Ht, Hf;
        rewrite filter_cons_False by (cbn; intros Hn; by apply Hn); done. }
  destruct Hcleared as [Ht Hf]. split; [assumption|]. split; [assumption|].
  pose proof (reachable_wf w H) as Hw.
  destruct (loop_returns time (cancel w)) as [w' Hl]; [apply Hw|].
  exists w'. cbn. rewrite Hl. cbn. split; [reflexivity|]. split.
  - by rewrite (st_frames _ _ _ (loop_stepped _ _ _ Hl)).
  - by apply (loop_one_pending time (cancel w)).
Qed.

Lemma started_raft_one_pending : one_pending started_raft.
Proof. left. by exists 1%nat, zero. Qed.

Lemma cancel_then_loop_restarts_witness :
  reachable started_raft /\
  one_pending started_raft /\
  exists w',
    run [OpCancel; OpLoop (of_Z 200)] started_raft = Ok w' /\
    frames_ (obj w') = 2%Z /\
    one_pending w'.
Proof.
  split; [exact started_raft_reachable|].
  split; [exact started_raft_one_pending|].
  destruct (cancel_then_loop_restarts started_raft (of_Z 200)
              started_raft_reachable started_raft_one_pending)
    as (_ & _ & w' & Hrun & Hframes & Hone).
  exists w'. exact (conj Hrun (conj Hframes Hone)).
Defined.
